(** * GridWorld: a shallow embedding of [gridworld.py]

    The environment of [gridworld.py] is a Python object whose methods
    read a static map and mutate an episode state.  The object is
    embedded as the record [GridWorld]; its methods are computations in
    a small state-and-exception monad over a [world] that holds the
    object together with NumPy's global random generator.

    Cell coordinates are Python integers and are modelled in [Z].  The
    candidate cell of a transition is the one sum the code leaves to
    NumPy; [NumPy.add] models it with the element type NumPy chooses,
    so that it wraps around at 64 bits and turns to binary64 beyond.
    On a grid with fewer than [2^63] rows and columns it is the sum of
    integers ([np_add_exact]); the properties of the transition that
    need this carry [small_grid] as a hypothesis.  A [cell] stands for
    a tuple of integers whatever their Python type: the Python integers
    that a caller or [reset] provides, or the NumPy scalars that a sum
    leaves in [agent_state]; on such a grid the two behave alike in the
    wall tests and the comparisons of the code, where every value met
    lies between [-1] and [2^63 - 1].  Rewards, trajectory offsets and
    arrow lengths are binary64 numbers and are modelled by Rocq's
    primitive floats. *)

From Stdlib Require Import String ZArith List Bool Lia Floats.
Import ListNotations.

Set Warnings "-inexact-float".

Local Open Scope Z_scope.

(** ** Python values *)

(** A grid cell, and a displacement: the tuple [(x, y)]. *)
Definition cell : Type := (Z * Z)%type.

(** [a == b] on two such tuples. *)
Definition cell_eqb (a b : cell) : bool :=
  (fst a =? fst b) && (snd a =? snd b).

(** [c in l] on a list of tuples. *)
Definition cell_in (c : cell) (l : list cell) : bool :=
  existsb (fun e => cell_eqb c e) l.

(** Conversion of an integer operand in mixed arithmetic: the nearest
    binary64 number. *)
Definition float_of_Z (z : Z) : float :=
  SF2Prim (binary_normalize prec emax z 0 false).

(** A recorded trajectory point is either a tuple of integers (a cell)
    or a tuple of floats (a point drawn off the cell centre). *)
Inductive point : Type :=
| Cell (c : cell)
| Offset (x y : float).

(** The auxiliary dictionary returned by [reset] and [step]. *)
Definition info : Type := list (string * string).

(** What the overlay methods put on the axes.  Colours and line widths
    are left out; position and extent are kept. *)
Inductive artist : Type :=
| FancyArrow (x y : Z) (dx dy : float)
| Circle (x y : Z) (radius : float)
| Text (x y : Z) (s : string).

Definition anchor (a : artist) : cell :=
  match a with
  | FancyArrow x y _ _ => (x, y)
  | Circle x y _ => (x, y)
  | Text x y _ => (x, y)
  end.

(** ** NumPy's sum of two tuples *)

(** [tuple(np.array(a) + np.array(b))] for two tuples of Python
    integers.  NumPy chooses the element type of an array from the
    values: signed 64-bit integers when both fit, otherwise unsigned
    64-bit integers or binary64 numbers when both lie in
    [[-2^63, 2^64)], otherwise Python objects.  The sum of two signed
    arrays wraps around; a signed array added to an unsigned one, and
    any sum with a binary64 array, is computed in binary64; a sum with
    an object array is computed on Python integers and is exact. *)
Module NumPy.

Inductive dtype : Type := Int64 | UInt64 | Float64 | Object.

Definition fits_int64 (z : Z) : bool := (- 2 ^ 63 <=? z) && (z <? 2 ^ 63).

Definition fits_uint64 (z : Z) : bool := (0 <=? z) && (z <? 2 ^ 64).

(** The element type of [np.array(c)]. *)
Definition dtype_of (c : cell) : dtype :=
  if fits_int64 (fst c) && fits_int64 (snd c) then Int64
  else if fits_uint64 (fst c) && fits_uint64 (snd c) then UInt64
  else if (fits_int64 (fst c) || fits_uint64 (fst c))
          && (fits_int64 (snd c) || fits_uint64 (snd c)) then Float64
  else Object.

(** The element type of the sum of two arrays. *)
Definition promote (a b : dtype) : dtype :=
  match a, b with
  | Object, _ | _, Object => Object
  | Float64, _ | _, Float64 => Float64
  | Int64, Int64 => Int64
  | UInt64, UInt64 => UInt64
  | Int64, UInt64 | UInt64, Int64 => Float64
  end.

(** Two's complement wrap-around of a 64-bit signed integer, and the
    wrap-around of an unsigned one. *)
Definition wrap_int64 (z : Z) : Z := (z + 2 ^ 63) mod 2 ^ 64 - 2 ^ 63.

Definition add_int64 (a b : Z) : Z := wrap_int64 (a + b).

Definition wrap_uint64 (z : Z) : Z := z mod 2 ^ 64.

(** The integer nearest to [n / u], the even one of two that are
    equally near. *)
Definition round_half_even (n u : Z) : Z :=
  let q := n / u in
  let r := n mod u in
  if 2 * r <? u then q
  else if u <? 2 * r then q + 1
  else if Z.even q then q else q + 1.

(** The binary64 number nearest to an integer, as an integer: the
    integer rounded to 53 significant bits.  (Every binary64 number
    that large is an integer; no overflow to infinity is modelled.) *)
Definition round_nonneg (n : Z) : Z :=
  let u := 2 ^ Z.max 0 (Z.log2 n - 52) in
  u * round_half_even n u.

Definition round_float64 (z : Z) : Z := Z.sgn z * round_nonneg (Z.abs z).

(** The sum of two integers converted to binary64: both are rounded,
    and so is their sum. *)
Definition add_float64 (a b : Z) : Z :=
  round_float64 (round_float64 a + round_float64 b).

Definition add_as (d : dtype) (a b : Z) : Z :=
  match d with
  | Int64 => add_int64 a b
  | UInt64 => wrap_uint64 (a + b)
  | Float64 => add_float64 a b
  | Object => a + b
  end.

(** The element type of the sum and its two elements. *)
Definition add (a b : cell) : dtype * cell :=
  let d := promote (dtype_of a) (dtype_of b) in
  (d, (add_as d (fst a) (fst b), add_as d (snd a) (snd b))).

(** [v == t] for an element [v] of a sum and a Python integer [t]: a
    binary64 element is compared with [t] converted to binary64. *)
Definition scalar_eqb (d : dtype) (v t : Z) : bool :=
  match d with
  | Float64 => v =? round_float64 t
  | _ => v =? t
  end.

(** [v == t] and [v in l] for the tuple [v] of a sum. *)
Definition tuple_eqb (d : dtype) (v t : cell) : bool :=
  scalar_eqb d (fst v) (fst t) && scalar_eqb d (snd v) (snd t).

Definition tuple_in (d : dtype) (v : cell) (l : list cell) : bool :=
  existsb (fun e => tuple_eqb d v e) l.

End NumPy.

(** ** conf/arguments.py *)

Module args.
Definition env_size : Z * Z := (5, 5).
Definition start_state : cell := (0, 0).
Definition target_state : cell := (4, 4).
Definition forbidden_states : list cell := [(1, 1); (2, 2); (3, 1)].
Definition action_space : list cell :=
  [ (0, -1)    (* up *)
  ; (1, 0)     (* right *)
  ; (0, 1)     (* down *)
  ; (-1, 0)    (* left *)
  ; (0, 0)     (* stay *) ].
Definition reward_target : float := 10.0%float.
Definition reward_forbidden : float := (-5.0)%float.
Definition reward_step : float := (-0.1)%float.
End args.

(** ** The object *)

(** The attributes of a [GridWorld] instance.  [traj] is created by
    [reset] and [ax] by [render]; before that the attribute does not
    exist, which is [None] here. *)
Record GridWorld : Type := mkGridWorld {
  env_size : Z * Z;
  num_states : Z;
  start_state : cell;
  target_state : cell;
  forbidden_states : list cell;
  agent_state : cell;
  action_space : list cell;
  reward_target : float;
  reward_forbidden : float;
  reward_step : float;
  traj : option (list point);
  ax : option (list artist)
}.

(** [GridWorld.__init__] *)
Definition __init__ (env_size0 : Z * Z) (start_state0 target_state0 : cell)
    (forbidden_states0 : list cell) : GridWorld :=
  {| env_size := env_size0;
     num_states := fst env_size0 * snd env_size0;
     start_state := start_state0;
     target_state := target_state0;
     forbidden_states := forbidden_states0;
     agent_state := start_state0;
     action_space := args.action_space;
     reward_target := args.reward_target;
     reward_forbidden := args.reward_forbidden;
     reward_step := args.reward_step;
     traj := None;
     ax := None |}.

Definition set_agent_state (s : cell) (g : GridWorld) : GridWorld :=
  {| env_size := env_size g; num_states := num_states g;
     start_state := start_state g; target_state := target_state g;
     forbidden_states := forbidden_states g;
     agent_state := s;
     action_space := action_space g;
     reward_target := reward_target g;
     reward_forbidden := reward_forbidden g;
     reward_step := reward_step g;
     traj := traj g; ax := ax g |}.

Definition set_traj (t : list point) (g : GridWorld) : GridWorld :=
  {| env_size := env_size g; num_states := num_states g;
     start_state := start_state g; target_state := target_state g;
     forbidden_states := forbidden_states g;
     agent_state := agent_state g;
     action_space := action_space g;
     reward_target := reward_target g;
     reward_forbidden := reward_forbidden g;
     reward_step := reward_step g;
     traj := Some t; ax := ax g |}.

Definition set_ax (a : list artist) (g : GridWorld) : GridWorld :=
  {| env_size := env_size g; num_states := num_states g;
     start_state := start_state g; target_state := target_state g;
     forbidden_states := forbidden_states g;
     agent_state := agent_state g;
     action_space := action_space g;
     reward_target := reward_target g;
     reward_forbidden := reward_forbidden g;
     reward_step := reward_step g;
     traj := traj g; ax := Some a |}.

(** ** Methods as computations *)

Inductive exn : Type :=
| InvalidAction (action : cell)   (* AssertionError: Invalid action ... *)
| AttributeError (name : string)
| ZeroDivisionError
| IndexError.

Inductive outcome (A : Type) : Type :=
| Return (a : A)
| Raise (e : exn).
Arguments Return {A} a.
Arguments Raise {A} e.

(** The object and the generator behind [np.random]: the sequence of
    samples it is going to deliver. *)
Record world : Type := mkWorld {
  self : GridWorld;
  np_random : nat -> float
}.

(** A method runs from a world to an outcome and the world it leaves
    behind; an exception keeps every mutation made before it. *)
Definition method (A : Type) : Type := world -> outcome A * world.

Definition ret {A : Type} (a : A) : method A := fun w => (Return a, w).

Definition raise {A : Type} (e : exn) : method A := fun w => (Raise e, w).

Definition bind {A B : Type} (m : method A) (k : A -> method B) : method B :=
  fun w =>
    match m w with
    | (Return a, w') => k a w'
    | (Raise e, w') => (Raise e, w')
    end.

Declare Scope method_scope.
Delimit Scope method_scope with method.
Notation "x <- m ;; k" := (bind m (fun x => k))
  (at level 61, m at next level, right associativity) : method_scope.
Notation "m ;; k" := (bind m (fun _ => k))
  (at level 61, right associativity) : method_scope.
Local Open Scope method_scope.

Definition get_self : method GridWorld := fun w => (Return (self w), w).

Definition modify_self (f : GridWorld -> GridWorld) : method unit :=
  fun w => (Return tt, {| self := f (self w); np_random := np_random w |}).

Definition assert (b : bool) (e : exn) : method unit :=
  if b then ret tt else raise e.

(** [np.random.randn()]: the next sample. *)
Definition randn : method float :=
  fun w => (Return (np_random w 0%nat),
            {| self := self w; np_random := fun n => np_random w (S n) |}).

(** [self.traj.append(p)] *)
Definition traj_append (p : point) : method unit :=
  fun w =>
    match traj (self w) with
    | Some t => modify_self (set_traj (t ++ [p])) w
    | None => raise (AttributeError "traj") w
    end.

(** [self.ax.add_patch(a)] and [self.ax.text(...)] *)
Definition ax_add (a : artist) : method unit :=
  fun w =>
    match ax (self w) with
    | Some l => modify_self (set_ax (l ++ [a])) w
    | None => raise (AttributeError "ax") w
    end.

(** ** GridWorld.reset *)

Definition reset : method (cell * info) :=
  modify_self (fun g => set_agent_state (start_state g) g) ;;
  modify_self (fun g => set_traj [Cell (agent_state g)] g) ;;
  g <- get_self ;;
  ret (agent_state g, []).

(** ** GridWorld._get_next_state_and_reward *)

Definition _get_next_state_and_reward (g : GridWorld) (state action : cell)
    : cell * float :=
  let '(x, y) := state in
  let '(dt, new_state) := NumPy.add state action in
  if (y + 1 >? snd (env_size g) - 1) && cell_eqb action (0, 1) then
    ((x, snd (env_size g) - 1), reward_forbidden g)
  else if (x + 1 >? fst (env_size g) - 1) && cell_eqb action (1, 0) then
    ((fst (env_size g) - 1, y), reward_forbidden g)
  else if (y - 1 <? 0) && cell_eqb action (0, -1) then
    ((x, 0), reward_forbidden g)
  else if (x - 1 <? 0) && cell_eqb action (-1, 0) then
    ((0, y), reward_forbidden g)
  else if NumPy.tuple_eqb dt new_state (target_state g) then
    (target_state g, reward_target g)
  else if NumPy.tuple_in dt new_state (forbidden_states g) then
    (state, reward_forbidden g)
  else
    (new_state, reward_step g).

(** ** GridWorld._is_done *)

Definition _is_done (g : GridWorld) (state : cell) : bool :=
  cell_eqb state (target_state g).

(** ** GridWorld.step *)

Definition step (action : cell) : method (cell * float * bool * info) :=
  g <- get_self ;;
  assert (cell_in action (action_space g)) (InvalidAction action) ;;
  let '(next_state, reward) :=
    _get_next_state_and_reward g (agent_state g) action in
  let done := _is_done g next_state in
  r1 <- randn ;;
  let x_store := (float_of_Z (fst next_state) + 0.03 * r1)%float in
  r2 <- randn ;;
  let y_store := (float_of_Z (snd next_state) + 0.03 * r2)%float in
  let state_store :=
    Offset (x_store + 0.2 * float_of_Z (fst action))%float
           (y_store + 0.2 * float_of_Z (snd action))%float in
  let state_store_2 := Cell (fst next_state, snd next_state) in
  modify_self (set_agent_state next_state) ;;
  traj_append state_store ;;
  traj_append state_store_2 ;;
  g' <- get_self ;;
  ret (agent_state g', reward, done, []).

(** ** Overlays: GridWorld.add_policy and GridWorld.add_state_values *)

(** [enumerate(l)] *)
Fixpoint enumerate_from {A : Type} (i : Z) (l : list A) : list (Z * A) :=
  match l with
  | [] => []
  | a :: l' => (i, a) :: enumerate_from (i + 1) l'
  end.

Definition enumerate {A : Type} (l : list A) : list (Z * A) :=
  enumerate_from 0 l.

(** [for a in l: body] *)
Fixpoint for_each {A : Type} (l : list A) (body : A -> method unit)
    : method unit :=
  match l with
  | [] => ret tt
  | a :: l' => body a ;; for_each l' body
  end.

(** [a % b] and [a // b] on integers: both round towards minus infinity,
    as [Z.modulo] and [Z.div] do, and both raise on a zero divisor. *)
Definition py_mod (a b : Z) : method Z :=
  if b =? 0 then raise ZeroDivisionError else ret (a mod b).

Definition py_floordiv (a b : Z) : method Z :=
  if b =? 0 then raise ZeroDivisionError else ret (a / b).

(** [l[i]] for an index that [enumerate] produced. *)
Definition getitem {A : Type} (l : list A) (i : Z) : method A :=
  match nth_error l (Z.to_nat i) with
  | Some a => ret a
  | None => raise IndexError
  end.

Definition add_policy (policy_matrix : list (list float)) : method unit :=
  for_each (enumerate policy_matrix) (fun '(state, state_action_group) =>
    g <- get_self ;;
    x <- py_mod state (fst (env_size g)) ;;
    y <- py_floordiv state (fst (env_size g)) ;;
    for_each (enumerate state_action_group) (fun '(i, action_probability) =>
      if negb (action_probability =? 0)%float then
        g <- get_self ;;
        a <- getitem (action_space g) i ;;
        let '(dx, dy) := a in
        if negb (cell_eqb (dx, dy) (0, 0)) then
          ax_add (FancyArrow x y
                    ((0.1 + action_probability / 2) * float_of_Z dx)%float
                    ((0.1 + action_probability / 2) * float_of_Z dy)%float)
        else
          ax_add (Circle x y 0.07%float)
      else ret tt)).

Section StateValues.

(** [np.round] on one element and [str] on a rounded element are taken
    as given. *)
Variable np_round : float -> Z -> float.
Variable str : float -> string.

Definition add_state_values (values : list float) (precision : Z)
    : method unit :=
  let values := map (fun v => np_round v precision) values in
  for_each (enumerate values) (fun '(i, value) =>
    g <- get_self ;;
    x <- py_mod i (fst (env_size g)) ;;
    y <- py_floordiv i (fst (env_size g)) ;;
    ax_add (Text x y (str value))).

End StateValues.

(** ** Running an episode *)

(** A sequence of [step] calls, stopped by the first exception. *)
Fixpoint step_all (actions : list cell)
    : method (list (cell * float * bool * info)) :=
  match actions with
  | [] => ret []
  | a :: rest =>
      o <- step a ;;
      os <- step_all rest ;;
      ret (o :: os)
  end.

(** The position a [step] call returned. *)
Definition returned_state (o : cell * float * bool * info) : cell :=
  fst (fst (fst o)).

(** The point [step] records ahead of the exact one: the new cell, moved
    by two samples of the generator and by a fifth of the action. *)
Definition state_store (next_state action : cell) (r1 r2 : float) : point :=
  Offset (float_of_Z (fst next_state) + 0.03 * r1
          + 0.2 * float_of_Z (fst action))%float
         (float_of_Z (snd next_state) + 0.03 * r2
          + 0.2 * float_of_Z (snd action))%float.

(** The generator after [k] samples were taken. *)
Definition advance (k : nat) (r : nat -> float) : nat -> float :=
  fun n => r (Nat.add k n).

(** ** The environments of test/test_gridworld.py *)

Module Tests.

(** [test_boundary_collision] and [test_trajectory_recording] *)
Definition boundary_env : GridWorld := __init__ (3, 3) (0, 0) (2, 2) [].

(** [test_forbidden_states] *)
Definition forbidden_env : GridWorld := __init__ (3, 3) (0, 0) (2, 2) [(1, 0)].

(** [test_target_reaching] *)
Definition target_env : GridWorld := __init__ (3, 3) (1, 1) (2, 1) [].

(** A map whose target is also listed as forbidden. *)
Definition overlap_env : GridWorld := __init__ (3, 3) (0, 0) (1, 0) [(1, 0)].

(** A generator that delivers the sample [n / 8] at its [n]-th call. *)
Definition samples : nat -> float :=
  fun n => (float_of_Z (Z.of_nat n) / 8)%float.

Definition fresh (g : GridWorld) : world :=
  {| self := g; np_random := samples |}.

(** The world after [reset]. *)
Definition started (g : GridWorld) : world := snd (reset (fresh g)).

(** A world whose axes exist and are still empty, a policy that mixes
    "right" and "stay" in every state of the 3 x 3 grid, and a value
    per state. *)
Definition rendered (g : GridWorld) : world := fresh (set_ax [] g).

Definition policy : list (list float) :=
  repeat [0; 0.75; 0; 0; 0.25]%float 9.

Definition values : list float := map float_of_Z [0; 1; 2; 3; 4; 5; 6; 7; 8].

(** Stand-ins for [np.round] and [str]: no rounding, no digits. *)
Definition keep (v : float) (precision : Z) : float := v.

Definition blank (v : float) : string := EmptyString.

End Tests.

(** ** Predicates used by the statements *)

(** The attributes no method assigns to: the map, the actions and the
    rewards. *)
Definition static_map (g : GridWorld)
    : Z * Z * cell * cell * list cell * list cell * (float * float * float) :=
  (env_size g, start_state g, target_state g, forbidden_states g,
   action_space g, (reward_target g, reward_forbidden g, reward_step g)).

(** A cell of the grid: [0 <= x < rows] and [0 <= y < cols]. *)
Definition in_grid (g : GridWorld) (c : cell) : Prop :=
  0 <= fst c < fst (env_size g) /\ 0 <= snd c < snd (env_size g).

(** A grid on which NumPy's sum is the sum of integers: fewer than
    [2^63] rows and fewer than [2^63] columns. *)
Definition small_grid (g : GridWorld) : Prop :=
  fst (env_size g) < 2 ^ 63 /\ snd (env_size g) < 2 ^ 63.

(** Whether one of the four wall tests of the transition function
    holds. *)
Definition wall_hit (g : GridWorld) (state action : cell) : bool :=
  ((snd state + 1 >? snd (env_size g) - 1) && cell_eqb action (0, 1))
  || ((fst state + 1 >? fst (env_size g) - 1) && cell_eqb action (1, 0))
  || ((snd state - 1 <? 0) && cell_eqb action (0, -1))
  || ((fst state - 1 <? 0) && cell_eqb action (-1, 0)).

(** The shape the docstring of [add_policy] asks of its argument: one
    row per state, one column per action. *)
Definition policy_shape (g : GridWorld) (policy_matrix : list (list float))
    : Prop :=
  Z.of_nat (length policy_matrix) = fst (env_size g) * snd (env_size g)
  /\ Forall (fun row => length row = length (action_space g)) policy_matrix.

(** The patch a nonzero probability [p] of the action [(dx, dy)] puts
    at [(x, y)]: an arrow for a move, a circle for "stay". *)
Definition policy_patch (x y : Z) (pa : float * cell) : artist :=
  let '(p, (dx, dy)) := pa in
  if negb (cell_eqb (dx, dy) (0, 0)) then
    FancyArrow x y ((0.1 + p / 2) * float_of_Z dx)%float
                   ((0.1 + p / 2) * float_of_Z dy)%float
  else Circle x y 0.07%float.

(** The patches one row of the policy matrix puts at [(x, y)]. *)
Definition row_patches (g : GridWorld) (x y : Z) (row : list float)
    : list artist :=
  map (policy_patch x y)
      (filter (fun pa => negb (fst pa =? 0)%float)
              (combine row (action_space g))).

(** ** The transition rules as the specification words them *)

Module Spec.

Definition up : cell := (0, -1).
Definition right : cell := (1, 0).
Definition down : cell := (0, 1).
Definition left : cell := (-1, 0).
Definition stay : cell := (0, 0).

Section Rules.
Variables rows cols : Z.
Variable target : cell.
Variable forbidden : list cell.
Variables rewardTarget rewardForbidden rewardStep : float.

Definition candidate (agentPosition action : cell) : cell :=
  (fst agentPosition + fst action, snd agentPosition + snd action).

(** The seven rules of the specification, tried in their order on the
    candidate cell; a wall rule clamps the coordinate of the candidate
    that left the grid. *)
Definition transition (agentPosition action : cell) : cell * float :=
  let c := candidate agentPosition action in
  if cell_eqb action down && (cols - 1 <? snd c) then
    ((fst c, cols - 1), rewardForbidden)
  else if cell_eqb action right && (rows - 1 <? fst c) then
    ((rows - 1, snd c), rewardForbidden)
  else if cell_eqb action up && (snd c <? 0) then
    ((fst c, 0), rewardForbidden)
  else if cell_eqb action left && (fst c <? 0) then
    ((0, snd c), rewardForbidden)
  else if cell_eqb c target then
    (target, rewardTarget)
  else if cell_in c forbidden then
    (agentPosition, rewardForbidden)
  else
    (c, rewardStep).
End Rules.

End Spec.

(** ** Predicates used by the further statements *)

(** A cell the agent may stand on: one that is not forbidden, or the
    target. *)
Definition allowed (g : GridWorld) (c : cell) : Prop :=
  ~ In c (forbidden_states g) \/ c = target_state g.

(** The number of unit moves between two cells. *)
Definition manhattan (a b : cell) : Z :=
  Z.abs (fst a - fst b) + Z.abs (snd a - snd b).

(** What the dynamics read: the map and the agent's position, and
    whether a trajectory exists. *)
Definition same_dynamics (w1 w2 : world) : Prop :=
  static_map (self w1) = static_map (self w2)
  /\ agent_state (self w1) = agent_state (self w2)
  /\ (traj (self w1) = None <-> traj (self w2) = None).

(** [w'] is [w] up to its axes: the map, the episode and the generator
    are the same. *)
Definition same_episode (w w' : world) : Prop :=
  static_map (self w') = static_map (self w)
  /\ agent_state (self w') = agent_state (self w)
  /\ traj (self w') = traj (self w)
  /\ np_random w' = np_random w.

(** The axes of [w'] hold the artists of [w], in their order, and
    possibly more after them; axes that do not exist still do not. *)
Definition axes_extended (w w' : world) : Prop :=
  match ax (self w), ax (self w') with
  | Some a, Some a' => exists more, a' = a ++ more
  | None, None => True
  | _, _ => False
  end.

(** A row, and a matrix, of zero probabilities. *)
Definition zero_row (row : list float) : bool :=
  forallb (fun p => (p =? 0)%float) row.

Definition zero_policy (policy_matrix : list (list float)) : bool :=
  forallb zero_row policy_matrix.

(** What an overlay may do to a world: add artists to its axes. *)
Definition overlay_only (w w' : world) : Prop :=
  same_episode w w' /\ axes_extended w w'.

(** ** An episode as a function of the map *)

(** What a sequence of [step] calls returns when every call returns:
    the transition function iterated from a position. *)
Fixpoint replay (g : GridWorld) (state : cell) (actions : list cell)
    : list (cell * float * bool * info) :=
  match actions with
  | [] => []
  | a :: rest =>
      let '(next_state, reward) := _get_next_state_and_reward g state a in
      (next_state, reward, _is_done g next_state, []) :: replay g next_state rest
  end.

(** The points these calls append to the trajectory, from the samples
    [r] of the generator. *)
Fixpoint recorded (r : nat -> float) (actions : list cell)
    (outs : list (cell * float * bool * info)) : list point :=
  match actions, outs with
  | a :: actions', o :: outs' =>
      state_store (returned_state o) a (r 0%nat) (r 1%nat)
      :: Cell (returned_state o)
      :: recorded (advance 2 r) actions' outs'
  | _, _ => []
  end.

(** The position after the calls: the last one returned, or the one
    before the first call. *)
Definition final_state (state : cell)
    (outs : list (cell * float * bool * info)) : cell :=
  last (map returned_state outs) state.

(** The position after a list of actions, by the transition function
    alone. *)
Definition walk (g : GridWorld) (state : cell) (actions : list cell) : cell :=
  fold_left (fun s a => fst (_get_next_state_and_reward g s a)) actions state.

(** [|d|] unit moves along one axis, in the direction of the sign of
    [d]. *)
Definition strides (d : Z) (forward backward : cell) : list cell :=
  repeat (if 0 <=? d then forward else backward) (Z.to_nat (Z.abs d)).

(** A shortest list of actions between two cells: along the first
    coordinate, then along the second. *)
Definition route (from to : cell) : list cell :=
  strides (fst to - fst from) (1, 0) (-1, 0)
  ++ strides (snd to - snd from) (0, 1) (0, -1).

(** ** Grids wider than a signed 64-bit integer *)

Module Wide.

(** A map of [2^64] rows whose start cell is the last one a signed
    64-bit integer can index. *)
Definition env : GridWorld := __init__ (2 ^ 64, 3) (2 ^ 63 - 1, 0) (2, 2) [].

(** The same map with the start cell two rows further. *)
Definition far_env : GridWorld :=
  __init__ (2 ^ 64, 3) (2 ^ 63 + 1, 0) (2, 2) [].

(** The same map with the target right of the start cell, and listed
    as forbidden. *)
Definition overlap_env : GridWorld :=
  __init__ (2 ^ 64, 3) (2 ^ 63 - 1, 0) (2 ^ 63, 0) [(2 ^ 63, 0)].

End Wide.

(** ** Further worlds for the examples *)

Module Scenes.



(** A map of no rows and three columns, with axes. *)
Definition no_rows : world :=
  Tests.fresh (set_ax [] (__init__ (0, 3) (0, 0) (0, 0) [])).

(** A map whose target lies right of the grid. *)
Definition lost_target : GridWorld := __init__ (3, 3) (0, 0) (3, 1) [].

(** A policy matrix whose second row has a nonzero probability in its
    seventh column. *)
Definition wide_policy : list (list float) :=
  [[0; 0.5; 0; 0; 0.5; 0]; [1; 0; 0; 0; 0; 0; 1; 0.5]]%float.

End Scenes.

(** * Properties *)

(** ** Equality and membership of cells *)

Lemma cell_eqb_eq (a b : cell) : cell_eqb a b = true <-> a = b.
Proof.
  destruct a as [ax0 ay0], b as [bx0 by0]; unfold cell_eqb; simpl.
  rewrite andb_true_iff, !Z.eqb_eq.
  split; [intros [-> ->]; reflexivity | intros H; inversion H; auto].
Qed.

Lemma cell_eqb_neq (a b : cell) : cell_eqb a b = false <-> a <> b.
Proof.
  rewrite <- cell_eqb_eq. destruct (cell_eqb a b); split; congruence.
Qed.

Lemma cell_eqb_refl (a : cell) : cell_eqb a a = true.
Proof. apply cell_eqb_eq; reflexivity. Qed.

Lemma cell_in_In (c : cell) (l : list cell) : cell_in c l = true <-> In c l.
Proof.
  unfold cell_in. rewrite existsb_exists. split.
  - intros [e [He Hc]]. apply cell_eqb_eq in Hc. subst; assumption.
  - intros H. exists c. split; [assumption | apply cell_eqb_refl].
Qed.

Lemma cell_in_not_In (c : cell) (l : list cell) :
  cell_in c l = false <-> ~ In c l.
Proof.
  rewrite <- cell_in_In. destruct (cell_in c l); split; congruence.
Qed.

(** The five displacements, by name. *)
Lemma action_space_cases (a : cell) :
  In a args.action_space ->
  a = Spec.up \/ a = Spec.right \/ a = Spec.down \/ a = Spec.left
  \/ a = Spec.stay.
Proof.
  unfold args.action_space; simpl.
  intros [H | [H | [H | [H | [H | []]]]]]; subst; auto 6.
Qed.

(** ** NumPy's sum on grid cells *)

Lemma wrap_int64_small (z : Z) :
  - 2 ^ 63 <= z < 2 ^ 63 -> NumPy.wrap_int64 z = z.
Proof.
  intros H. unfold NumPy.wrap_int64.
  rewrite Z.mod_small by lia. lia.
Qed.

(** On a grid with fewer than [2^63] rows, adding a unit displacement to
    a row index does not wrap; the same holds of columns. *)
Lemma add_int64_exact (n x d : Z) :
  n < 2 ^ 63 -> 0 <= x < n -> -1 <= d <= 1 ->
  NumPy.add_int64 x d = x + d.
Proof.
  intros Hn Hx Hd. unfold NumPy.add_int64.
  apply wrap_int64_small. lia.
Qed.

Lemma fits_int64_spec (z : Z) :
  NumPy.fits_int64 z = true <-> - 2 ^ 63 <= z < 2 ^ 63.
Proof.
  unfold NumPy.fits_int64. rewrite andb_true_iff, Z.leb_le, Z.ltb_lt.
  reflexivity.
Qed.

Lemma dtype_of_int64 (c : cell) :
  NumPy.dtype_of c = NumPy.Int64 <->
  NumPy.fits_int64 (fst c) = true /\ NumPy.fits_int64 (snd c) = true.
Proof.
  unfold NumPy.dtype_of.
  destruct (NumPy.fits_int64 (fst c)), (NumPy.fits_int64 (snd c));
    cbn [andb orb];
    repeat match goal with
           | |- context [if ?b then _ else _] => destruct b
           end;
    split; intros H; try discriminate H; try reflexivity;
    destruct H; try discriminate; auto.
Qed.

Lemma dtype_of_action (action : cell) :
  In action args.action_space -> NumPy.dtype_of action = NumPy.Int64.
Proof.
  intros Ha. apply action_space_cases in Ha.
  destruct Ha as [-> | [-> | [-> | [-> | ->]]]]; reflexivity.
Qed.

Lemma dtype_of_grid_cell (g : GridWorld) (c : cell) :
  small_grid g -> in_grid g c -> NumPy.dtype_of c = NumPy.Int64.
Proof.
  intros [Hr Hc] [Hx Hy]. apply dtype_of_int64.
  split; apply fits_int64_spec; lia.
Qed.

(** On a small grid, from a cell of the grid and with one of the five
    actions, NumPy's sum is a signed array that holds the sum of the
    integers. *)
Lemma np_add_exact (g : GridWorld) (state action : cell) :
  small_grid g ->
  in_grid g state ->
  In action args.action_space ->
  NumPy.add state action = (NumPy.Int64, Spec.candidate state action).
Proof.
  intros Hsmall Hs Ha. unfold NumPy.add.
  rewrite (dtype_of_grid_cell g state Hsmall Hs), (dtype_of_action action Ha).
  cbn [NumPy.promote NumPy.add_as]. unfold Spec.candidate.
  destruct Hsmall as [Hr Hc], Hs as [Hx Hy].
  apply action_space_cases in Ha.
  assert (Hd : -1 <= fst action <= 1 /\ -1 <= snd action <= 1).
  { destruct Ha as [-> | [-> | [-> | [-> | ->]]]]; cbn; lia. }
  destruct Hd as [Hdx Hdy].
  rewrite (add_int64_exact (fst (env_size g))) by assumption.
  rewrite (add_int64_exact (snd (env_size g))) by assumption.
  reflexivity.
Qed.

Lemma tuple_eqb_int64 (v t : cell) :
  NumPy.tuple_eqb NumPy.Int64 v t = cell_eqb v t.
Proof. reflexivity. Qed.

Lemma tuple_in_int64 (v : cell) (l : list cell) :
  NumPy.tuple_in NumPy.Int64 v l = cell_in v l.
Proof. reflexivity. Qed.

(** Rounding to binary64 *)








(** ** The transition function *)

(** Evaluates the comparisons of two literal displacements. *)
Ltac eval_cell_eqb :=
  repeat match goal with
         | |- context [cell_eqb (?a, ?b) (?c, ?d)] =>
             let v := eval vm_compute in (cell_eqb (a, b) (c, d)) in
             match v with true => idtac | false => idtac end;
             change (cell_eqb (a, b) (c, d)) with v
         end.

Ltac settle_branch :=
  eval_cell_eqb;
  rewrite ?andb_true_r, ?andb_false_r, ?Z.add_0_r;
  cbn [andb].

(** When NumPy's sum is the signed array of the candidate cell, the
    transition function is the one over the integers. *)
Lemma transition_of_exact_sum (g : GridWorld) (state action : cell) :
  NumPy.add state action = (NumPy.Int64, Spec.candidate state action) ->
  _get_next_state_and_reward g state action =
  let new_state := Spec.candidate state action in
  if (snd state + 1 >? snd (env_size g) - 1) && cell_eqb action (0, 1) then
    ((fst state, snd (env_size g) - 1), reward_forbidden g)
  else if (fst state + 1 >? fst (env_size g) - 1) && cell_eqb action (1, 0)
  then ((fst (env_size g) - 1, snd state), reward_forbidden g)
  else if (snd state - 1 <? 0) && cell_eqb action (0, -1) then
    ((fst state, 0), reward_forbidden g)
  else if (fst state - 1 <? 0) && cell_eqb action (-1, 0) then
    ((0, snd state), reward_forbidden g)
  else if cell_eqb new_state (target_state g) then
    (target_state g, reward_target g)
  else if cell_in new_state (forbidden_states g) then
    (state, reward_forbidden g)
  else (new_state, reward_step g).
Proof.
  intros E. destruct state as [x y]. unfold _get_next_state_and_reward.
  rewrite E. reflexivity.
Qed.

(** On a small grid the code and the rules of the specification agree
    on every cell of the grid and every action of the action space. *)
Lemma transition_refines (g : GridWorld) (state action : cell) :
  small_grid g ->
  in_grid g state ->
  In action args.action_space ->
  _get_next_state_and_reward g state action =
  Spec.transition (fst (env_size g)) (snd (env_size g))
    (target_state g) (forbidden_states g)
    (reward_target g) (reward_forbidden g) (reward_step g)
    state action.
Proof.
  intros Hsmall Hs Ha.
  rewrite (transition_of_exact_sum g state action
             (np_add_exact g state action Hsmall Hs Ha)).
  clear Hsmall Hs Ha.
  destruct state as [x y].
  unfold Spec.transition, Spec.candidate,
    Spec.down, Spec.right, Spec.up, Spec.left.
  cbn [fst snd].
  rewrite !Z.gtb_ltb.
  destruct (cell_eqb action (0, 1)) eqn:Ed.
  { apply cell_eqb_eq in Ed; subst action; cbn [fst snd].
    settle_branch. reflexivity. }
  destruct (cell_eqb action (1, 0)) eqn:Er.
  { apply cell_eqb_eq in Er; subst action; cbn [fst snd].
    settle_branch. reflexivity. }
  destruct (cell_eqb action (0, -1)) eqn:Eu.
  { apply cell_eqb_eq in Eu; subst action; cbn [fst snd].
    settle_branch. replace (y + -1) with (y - 1) by lia. reflexivity. }
  destruct (cell_eqb action (-1, 0)) eqn:El.
  { apply cell_eqb_eq in El; subst action; cbn [fst snd].
    settle_branch. replace (x + -1) with (x - 1) by lia. reflexivity. }
  settle_branch. reflexivity.
Qed.

(** On a small grid, when no wall test holds, the transition is decided
    by the candidate cell alone. *)
Lemma transition_no_wall (g : GridWorld) (state action : cell) :
  small_grid g ->
  in_grid g state ->
  In action args.action_space ->
  wall_hit g state action = false ->
  _get_next_state_and_reward g state action =
  let new_state := Spec.candidate state action in
  if cell_eqb new_state (target_state g) then
    (target_state g, reward_target g)
  else if cell_in new_state (forbidden_states g) then
    (state, reward_forbidden g)
  else (new_state, reward_step g).
Proof.
  intros Hsmall Hs Ha H.
  rewrite (transition_of_exact_sum g state action
             (np_add_exact g state action Hsmall Hs Ha)).
  unfold wall_hit in H. cbv zeta.
  repeat (apply orb_false_iff in H; destruct H as [H ?]).
  repeat match goal with E : _ = false |- _ => rewrite E; clear E end.
  reflexivity.
Qed.

(** When a wall test holds on a cell of the grid, the agent is put back
    on the cell it came from, and the reward is the forbidden one. *)
Lemma transition_wall (g : GridWorld) (state action : cell) :
  in_grid g state ->
  wall_hit g state action = true ->
  _get_next_state_and_reward g state action = (state, reward_forbidden g).
Proof.
  destruct state as [x y]. unfold in_grid, wall_hit, _get_next_state_and_reward.
  cbn [fst snd]. intros [Hx Hy] H.
  destruct (NumPy.add (x, y) action) as [dt new_state].
  destruct ((y + 1 >? snd (env_size g) - 1) && cell_eqb action (0, 1)) eqn:E1.
  { apply andb_true_iff in E1. destruct E1 as [E1 _].
    apply Z.gtb_lt in E1.
    replace (snd (env_size g) - 1) with y by lia. reflexivity. }
  destruct ((x + 1 >? fst (env_size g) - 1) && cell_eqb action (1, 0)) eqn:E2.
  { apply andb_true_iff in E2. destruct E2 as [E2 _].
    apply Z.gtb_lt in E2.
    replace (fst (env_size g) - 1) with x by lia. reflexivity. }
  destruct ((y - 1 <? 0) && cell_eqb action (0, -1)) eqn:E3.
  { apply andb_true_iff in E3. destruct E3 as [E3 _].
    apply Z.ltb_lt in E3.
    replace y with 0 by lia. reflexivity. }
  destruct ((x - 1 <? 0) && cell_eqb action (-1, 0)) eqn:E4.
  { apply andb_true_iff in E4. destruct E4 as [E4 _].
    apply Z.ltb_lt in E4.
    replace x with 0 by lia. reflexivity. }
  discriminate H.
Qed.


(** From a cell of the grid, one of the five displacements either hits a
    wall or leads to a cell of the grid. *)
Lemma candidate_in_grid (g : GridWorld) (state action : cell) :
  in_grid g state ->
  In action args.action_space ->
  wall_hit g state action = false ->
  in_grid g (Spec.candidate state action).
Proof.
  destruct state as [x y]. unfold in_grid, wall_hit, Spec.candidate.
  cbn [fst snd]. intros [Hx Hy] Ha H.
  repeat (apply orb_false_iff in H; destruct H as [H ?]).
  apply action_space_cases in Ha.
  destruct Ha as [-> | [-> | [-> | [-> | ->]]]];
    unfold Spec.up, Spec.right, Spec.down, Spec.left, Spec.stay in *;
    cbn [fst snd];
    repeat match goal with
           | E : context [cell_eqb (?a, ?b) (?c, ?d)] |- _ =>
               let v := eval vm_compute in (cell_eqb (a, b) (c, d)) in
               change (cell_eqb (a, b) (c, d)) with v in E
           | E : (_ && true) = false |- _ => rewrite andb_true_r in E
           | E : (_ >? _) = false |- _ => rewrite Z.gtb_ltb in E
           | E : (_ <? _) = false |- _ => apply Z.ltb_ge in E
           end; lia.
Qed.

(** On a small grid the transition function keeps the agent on the
    grid. *)
Lemma transition_in_grid (g : GridWorld) (state action : cell) :
  small_grid g ->
  in_grid g state ->
  In action args.action_space ->
  in_grid g (fst (_get_next_state_and_reward g state action)).
Proof.
  intros Hsmall Hs Ha.
  destruct (wall_hit g state action) eqn:W.
  - rewrite transition_wall by assumption. exact Hs.
  - pose proof (candidate_in_grid g state action Hs Ha W) as Hc.
    rewrite transition_no_wall by assumption. cbv zeta.
    destruct (cell_eqb (Spec.candidate state action) (target_state g)) eqn:Et.
    + apply cell_eqb_eq in Et. rewrite <- Et. exact Hc.
    + destruct (cell_in (Spec.candidate state action) (forbidden_states g));
        assumption.
Qed.

(** The three moves the test suite checks: a wall, a forbidden cell,
    the target. *)
Example up_from_corner :
  _get_next_state_and_reward Tests.boundary_env (0, 0) (0, -1)
  = ((0, 0), (-5)%float).
Proof. reflexivity. Qed.

Example right_into_forbidden :
  _get_next_state_and_reward Tests.forbidden_env (0, 0) (1, 0)
  = ((0, 0), (-5)%float).
Proof. reflexivity. Qed.

Example right_onto_target :
  _get_next_state_and_reward Tests.target_env (1, 1) (1, 0)
  = ((2, 1), 10%float).
Proof. reflexivity. Qed.

(** ** reset and step as state transformers *)

Lemma reset_returns (w : world) :
  reset w =
  (Return (start_state (self w), []),
   {| self := set_traj [Cell (start_state (self w))]
                (set_agent_state (start_state (self w)) (self w));
      np_random := np_random w |}).
Proof. reflexivity. Qed.

(** With an action of the action space and a trajectory to append to,
    [step] returns; what it returns and the world it leaves are these. *)
Lemma step_returns (w : world) (action : cell) (t : list point) :
  traj (self w) = Some t ->
  cell_in action (action_space (self w)) = true ->
  forall next_state reward,
    _get_next_state_and_reward (self w) (agent_state (self w)) action
    = (next_state, reward) ->
    step action w =
    (Return (next_state, reward, _is_done (self w) next_state, []),
     {| self :=
          set_traj (t ++ [state_store next_state action
                            (np_random w 0%nat) (np_random w 1%nat);
                          Cell next_state])
            (set_agent_state next_state (self w));
        np_random := advance 2 (np_random w) |}).
Proof.
  intros Ht Ha next_state reward Hnr.
  unfold step, bind, get_self, assert. rewrite Ha.
  unfold ret at 1. rewrite Hnr.
  destruct next_state as [nx ny].
  unfold randn, modify_self, traj_append, ret, raise; cbn.
  rewrite Ht; cbn.
  unfold set_traj, set_agent_state, state_store; cbn.
  rewrite <- app_assoc. reflexivity.
Qed.

(** Every instance is built with the five actions of the
    configuration. *)
Lemma constructed_action_space (size : Z * Z) (start target : cell)
    (forbidden : list cell) :
  action_space (__init__ size start target forbidden) = args.action_space.
Proof. reflexivity. Qed.

(** Neither [reset] nor [step], returning or raising, changes the map. *)
Lemma reset_static_map (w : world) :
  static_map (self (snd (reset w))) = static_map (self w).
Proof. reflexivity. Qed.

Lemma step_static_map (action : cell) (w : world) :
  static_map (self (snd (step action w))) = static_map (self w).
Proof.
  unfold step, bind, get_self, assert.
  destruct (cell_in action (action_space (self w))); [| reflexivity].
  unfold ret at 1.
  destruct (_get_next_state_and_reward (self w) (agent_state (self w)) action)
    as [next_state reward].
  unfold randn, modify_self, traj_append, ret, raise; cbn.
  destruct (traj (self w)); reflexivity.
Qed.

(** With an action outside the action space, [step] raises before it
    touches anything. *)
Lemma step_raises (w : world) (action : cell) :
  cell_in action (action_space (self w)) = false ->
  step action w = (Raise (InvalidAction action), w).
Proof.
  intros Ha. unfold step, bind, get_self, assert. rewrite Ha. reflexivity.
Qed.

(** Without a trajectory, [step] fails on its first append, after the
    agent was moved. *)
Lemma step_before_reset (w : world) (action : cell) :
  traj (self w) = None ->
  cell_in action (action_space (self w)) = true ->
  exists w', step action w = (Raise (AttributeError "traj"), w').
Proof.
  intros Ht Ha. unfold step, bind, get_self, assert. rewrite Ha.
  unfold ret at 1.
  destruct (_get_next_state_and_reward (self w) (agent_state (self w)) action)
    as [next_state reward].
  unfold randn, modify_self, traj_append, ret, raise; cbn.
  rewrite Ht. eexists. reflexivity.
Qed.

(** An episode kept on the grid: every call returns, every returned
    position and the final position lie on the grid, and the static map
    is left as it was. *)
Lemma step_all_in_grid (actions : list cell) :
  forall (w : world) (t : list point),
    action_space (self w) = args.action_space ->
    small_grid (self w) ->
    traj (self w) = Some t ->
    in_grid (self w) (agent_state (self w)) ->
    Forall (fun a => In a args.action_space) actions ->
    exists outs w',
      step_all actions w = (Return outs, w')
      /\ length outs = length actions
      /\ env_size (self w') = env_size (self w)
      /\ in_grid (self w) (agent_state (self w'))
      /\ Forall (fun o => in_grid (self w) (returned_state o)) outs.
Proof.
  induction actions as [| a rest IH]; intros w t Hcfg Hsmall Ht Hin Hall.
  - exists [], w. repeat split; try apply Hin; constructor.
  - inversion Hall as [| ? ? Ha Hrest]; subst.
    destruct (_get_next_state_and_reward (self w) (agent_state (self w)) a)
      as [ns r] eqn:Hnr.
    assert (Hns : in_grid (self w) ns).
    { pose proof (transition_in_grid (self w) _ a Hsmall Hin Ha) as H.
      rewrite Hnr in H. exact H. }
    assert (Hmem : cell_in a (action_space (self w)) = true).
    { rewrite Hcfg. apply cell_in_In. exact Ha. }
    pose proof (step_returns w a t Ht Hmem ns r Hnr) as Hstep.
    match type of Hstep with _ = (_, ?w1) =>
      destruct (IH w1 (t ++ [state_store ns a (np_random w 0%nat)
                               (np_random w 1%nat); Cell ns]))
        as [outs [w' [Hrun [Hlen [Henv [Hfin Houts]]]]]];
        [exact Hcfg | exact Hsmall | reflexivity | exact Hns | exact Hrest | ]
    end.
    eexists; exists w'. cbn [step_all]. unfold bind at 1. rewrite Hstep.
    unfold bind at 1. rewrite Hrun. unfold ret.
    split; [reflexivity |]. split; [cbn [length]; rewrite Hlen; reflexivity |].
    split; [exact Henv |]. split; [exact Hfin |].
    constructor; [exact Hns | exact Houts].
Qed.

(** What [test_target_reaching] observes. *)
Example step_onto_target :
  fst (step (1, 0) (Tests.started Tests.target_env))
  = Return ((2, 1), 10%float, true, []).
Proof. reflexivity. Qed.

(** What [test_trajectory_recording] observes after three steps to the
    right, the last of them against the wall. *)
Example three_steps_right :
  option_map (@length point)
    (traj (self (snd (step_all [(1, 0); (1, 0); (1, 0)]
                        (Tests.started Tests.boundary_env)))))
  = Some 7%nat
  /\ agent_state (self (snd (step_all [(1, 0); (1, 0); (1, 0)]
                              (Tests.started Tests.boundary_env))))
     = (2, 0).
Proof. split; reflexivity. Qed.

(** ** The transition rules *)

(** C1, as amended: on a grid with fewer than [2^63] rows and fewer
    than [2^63] columns, from a cell of the grid and with one of the
    five actions, the transition function returns what the seven rules
    of the specification return when they are tried in their order on
    the candidate cell [position + action]: the four wall rules (down,
    right, up, left) with the forbidden reward, then the target rule
    with the target reward, then the forbidden rule (stay, forbidden
    reward), then the plain move with the step reward. *)
Theorem transition_rule_order (g : GridWorld) (state action : cell) :
  small_grid g ->
  in_grid g state ->
  In action args.action_space ->
  _get_next_state_and_reward g state action =
  Spec.transition (fst (env_size g)) (snd (env_size g))
    (target_state g) (forbidden_states g)
    (reward_target g) (reward_forbidden g) (reward_step g)
    state action.
Proof. exact (transition_refines g state action). Qed.

Lemma transition_rule_order_witness :
  small_grid Tests.forbidden_env
  /\ in_grid Tests.forbidden_env (0, 0)
  /\ In (1, 0) args.action_space
  /\ _get_next_state_and_reward Tests.forbidden_env (0, 0) (1, 0) =
     Spec.transition 3 3 (2, 2) [(1, 0)]
       args.reward_target args.reward_forbidden args.reward_step
       (0, 0) (1, 0).
Proof.
  assert (Hsmall : small_grid Tests.forbidden_env)
    by (unfold small_grid; cbn; lia).
  assert (Hg : in_grid Tests.forbidden_env (0, 0))
    by (unfold in_grid; cbn; lia).
  assert (Ha : In (1, 0) args.action_space) by (right; left; reflexivity).
  split; [exact Hsmall |]. split; [exact Hg |]. split; [exact Ha |].
  exact (transition_rule_order Tests.forbidden_env (0, 0) (1, 0)
           Hsmall Hg Ha).
Defined.

(** C1 as it was stated, without a bound on the grid, fails: on a grid
    of [2^64] rows, from the cell [(2^63 - 1, 0)] of the grid and with
    the action "right", no wall test holds and the rules of the
    specification move to the candidate [(2^63, 0)], but NumPy's sum
    wraps around and the code moves to [(-2^63, 0)]. *)
Lemma transition_rule_order_fails_on_wide_grid :
  in_grid Wide.env (2 ^ 63 - 1, 0)
  /\ In (1, 0) args.action_space
  /\ _get_next_state_and_reward Wide.env (2 ^ 63 - 1, 0) (1, 0)
     = ((- 2 ^ 63, 0), args.reward_step)
  /\ Spec.transition (2 ^ 64) 3 (2, 2) []
       args.reward_target args.reward_forbidden args.reward_step
       (2 ^ 63 - 1, 0) (1, 0)
     = ((2 ^ 63, 0), args.reward_step)
  /\ _get_next_state_and_reward Wide.env (2 ^ 63 - 1, 0) (1, 0)
     <> Spec.transition (fst (env_size Wide.env)) (snd (env_size Wide.env))
          (target_state Wide.env) (forbidden_states Wide.env)
          (reward_target Wide.env) (reward_forbidden Wide.env)
          (reward_step Wide.env) (2 ^ 63 - 1, 0) (1, 0).
Proof.
  split; [unfold in_grid; cbn; lia |].
  split; [right; left; reflexivity |].
  split; [reflexivity |]. split; [reflexivity |].
  intros H. apply (f_equal (fun p => fst (fst p))) in H.
  vm_compute in H. discriminate H.
Qed.



(** ** reset *)

(** C4: on every world, [reset] returns (it has no failing path); it
    returns the start cell and an empty dictionary, and it leaves the
    agent on the start cell with the one-point trajectory [[start]]. *)
Theorem reset_restarts_episode (w : world) :
  exists w',
    reset w = (Return (start_state (self w), []), w')
    /\ agent_state (self w') = start_state (self w)
    /\ traj (self w') = Some [Cell (start_state (self w))].
Proof.
  eexists. rewrite reset_returns. repeat split.
Qed.

(** ** step *)

(** C3: an action that is none of the five tuples of the action space
    makes [step] raise the invalid-action assertion, and the world it
    leaves (agent position and trajectory included) is the world it
    was called on. *)
Theorem invalid_action_rejected (w : world) (action : cell) :
  action_space (self w) = args.action_space ->
  ~ In action args.action_space ->
  step action w = (Raise (InvalidAction action), w).
Proof.
  intros Hcfg Ha. apply step_raises. rewrite Hcfg.
  apply cell_in_not_In. exact Ha.
Qed.

Lemma invalid_action_rejected_witness :
  action_space (self (Tests.started Tests.boundary_env)) = args.action_space
  /\ ~ In (2, 2) args.action_space
  /\ step (2, 2) (Tests.started Tests.boundary_env) =
     (Raise (InvalidAction (2, 2)), Tests.started Tests.boundary_env).
Proof.
  assert (Hcfg : action_space (self (Tests.started Tests.boundary_env))
                 = args.action_space) by reflexivity.
  assert (Ha : ~ In (2, 2) args.action_space).
  { intros H. cbn in H. repeat destruct H as [H | H]; try discriminate H.
    exact H. }
  split; [exact Hcfg |]. split; [exact Ha |].
  exact (invalid_action_rejected (Tests.started Tests.boundary_env) (2, 2)
           Hcfg Ha).
Defined.





(** C7, as amended: on a grid with fewer than [2^63] rows and fewer
    than [2^63] columns, when the agent is on a cell of the grid that is
    neither the target nor forbidden, [step((0, 0))] returns that same
    cell with the step reward, and the agent is still on it
    afterwards. *)
Theorem stay_keeps_position (w : world) (t : list point) :
  action_space (self w) = args.action_space ->
  small_grid (self w) ->
  traj (self w) = Some t ->
  in_grid (self w) (agent_state (self w)) ->
  agent_state (self w) <> target_state (self w) ->
  ~ In (agent_state (self w)) (forbidden_states (self w)) ->
  exists w',
    step (0, 0) w =
    (Return (agent_state (self w), reward_step (self w), false, []), w')
    /\ agent_state (self w') = agent_state (self w).
Proof.
  intros Hcfg Hsmall Ht Hg Hnt Hnf.
  assert (Hmem : cell_in (0, 0) (action_space (self w)) = true)
    by (rewrite Hcfg; reflexivity).
  assert (Hnr : _get_next_state_and_reward (self w) (agent_state (self w))
                  (0, 0)
                = (agent_state (self w), reward_step (self w))).
  { rewrite transition_no_wall; try assumption.
    - cbv zeta. unfold Spec.candidate. cbn [fst snd]. rewrite !Z.add_0_r.
      rewrite <- surjective_pairing.
      apply cell_eqb_neq in Hnt. rewrite Hnt.
      apply cell_in_not_In in Hnf. rewrite Hnf. reflexivity.
    - do 4 right. left. reflexivity.
    - unfold wall_hit. eval_cell_eqb. rewrite !andb_false_r. reflexivity. }
  pose proof (step_returns w (0, 0) t Ht Hmem _ _ Hnr) as Hstep.
  unfold _is_done in Hstep. apply cell_eqb_neq in Hnt. rewrite Hnt in Hstep.
  eexists. split; [exact Hstep | reflexivity].
Qed.

Lemma stay_keeps_position_witness :
  action_space (self (Tests.started Tests.forbidden_env))
  = args.action_space
  /\ small_grid (self (Tests.started Tests.forbidden_env))
  /\ traj (self (Tests.started Tests.forbidden_env)) = Some [Cell (0, 0)]
  /\ in_grid (self (Tests.started Tests.forbidden_env))
       (agent_state (self (Tests.started Tests.forbidden_env)))
  /\ agent_state (self (Tests.started Tests.forbidden_env))
     <> target_state (self (Tests.started Tests.forbidden_env))
  /\ ~ In (agent_state (self (Tests.started Tests.forbidden_env)))
          (forbidden_states (self (Tests.started Tests.forbidden_env)))
  /\ exists w',
       step (0, 0) (Tests.started Tests.forbidden_env) =
       (Return ((0, 0), args.reward_step, false, []), w')
       /\ agent_state (self w') = (0, 0).
Proof.
  assert (Hcfg : action_space (self (Tests.started Tests.forbidden_env))
                 = args.action_space) by reflexivity.
  assert (Hsmall : small_grid (self (Tests.started Tests.forbidden_env)))
    by (unfold small_grid; cbn; lia).
  assert (Ht : traj (self (Tests.started Tests.forbidden_env))
               = Some [Cell (0, 0)]) by reflexivity.
  assert (Hg : in_grid (self (Tests.started Tests.forbidden_env))
                 (agent_state (self (Tests.started Tests.forbidden_env))))
    by (unfold in_grid; cbn; lia).
  assert (Hnt : agent_state (self (Tests.started Tests.forbidden_env))
                <> target_state (self (Tests.started Tests.forbidden_env)))
    by (cbn; discriminate).
  assert (Hnf : ~ In (agent_state (self (Tests.started Tests.forbidden_env)))
                     (forbidden_states
                        (self (Tests.started Tests.forbidden_env)))).
  { cbn. intros [H | []]. discriminate H. }
  split; [exact Hcfg |]. split; [exact Hsmall |]. split; [exact Ht |].
  split; [exact Hg |]. split; [exact Hnt |]. split; [exact Hnf |].
  exact (stay_keeps_position (Tests.started Tests.forbidden_env)
           [Cell (0, 0)] Hcfg Hsmall Ht Hg Hnt Hnf).
Defined.

(** C7 as it was stated, without a bound on the grid, fails: on a grid
    of [2^64] rows the cell [(2^63 + 1, 0)] is a cell of the grid that
    is neither the target nor forbidden, but NumPy computes the sum of
    such a tuple and [(0, 0)] in binary64, where [2^63 + 1] rounds to
    [2^63]: [step((0, 0))] returns [(2^63, 0)] with the step reward and
    leaves the agent there. *)
Lemma stay_moves_on_wide_grid :
  action_space (self (Tests.started Wide.far_env)) = args.action_space
  /\ traj (self (Tests.started Wide.far_env)) = Some [Cell (2 ^ 63 + 1, 0)]
  /\ in_grid (self (Tests.started Wide.far_env))
       (agent_state (self (Tests.started Wide.far_env)))
  /\ agent_state (self (Tests.started Wide.far_env))
     <> target_state (self (Tests.started Wide.far_env))
  /\ ~ In (agent_state (self (Tests.started Wide.far_env)))
          (forbidden_states (self (Tests.started Wide.far_env)))
  /\ agent_state (self (Tests.started Wide.far_env)) = (2 ^ 63 + 1, 0)
  /\ fst (step (0, 0) (Tests.started Wide.far_env))
     = Return ((2 ^ 63, 0), args.reward_step, false, [])
  /\ agent_state (self (snd (step (0, 0) (Tests.started Wide.far_env))))
     = (2 ^ 63, 0)
  /\ agent_state (self (snd (step (0, 0) (Tests.started Wide.far_env))))
     <> agent_state (self (Tests.started Wide.far_env)).
Proof.
  split; [reflexivity |]. split; [reflexivity |].
  split; [unfold in_grid; cbn; lia |].
  split; [cbn; discriminate |].
  split; [cbn; intros [] |].
  split; [reflexivity |]. split; [vm_compute; reflexivity |].
  split; [vm_compute; reflexivity |].
  vm_compute. discriminate.
Qed.

(** C8, as amended: on a grid with fewer than [2^63] rows and fewer
    than [2^63] columns whose target cell is also listed as forbidden,
    when the candidate cell of a move from a cell of the grid is the
    target and no wall test holds, the transition function answers with
    the target and the target reward, and [step] moves the agent onto
    the target: the target test is tried before the forbidden test. *)
Theorem target_precedes_forbidden (w : world) (action : cell)
    (t : list point) :
  action_space (self w) = args.action_space ->
  small_grid (self w) ->
  traj (self w) = Some t ->
  In (target_state (self w)) (forbidden_states (self w)) ->
  in_grid (self w) (agent_state (self w)) ->
  In action args.action_space ->
  wall_hit (self w) (agent_state (self w)) action = false ->
  Spec.candidate (agent_state (self w)) action = target_state (self w) ->
  _get_next_state_and_reward (self w) (agent_state (self w)) action
  = (target_state (self w), reward_target (self w))
  /\ exists w',
       step action w =
       (Return (target_state (self w), reward_target (self w), true, []), w')
       /\ agent_state (self w') = target_state (self w).
Proof.
  intros Hcfg Hsmall Ht _ Hg Ha Hw Hc.
  assert (Hnr : _get_next_state_and_reward (self w) (agent_state (self w))
                  action
                = (target_state (self w), reward_target (self w))).
  { rewrite transition_no_wall by assumption. cbv zeta.
    rewrite Hc, cell_eqb_refl. reflexivity. }
  split; [exact Hnr |].
  assert (Hmem : cell_in action (action_space (self w)) = true)
    by (rewrite Hcfg; apply cell_in_In; exact Ha).
  pose proof (step_returns w action t Ht Hmem _ _ Hnr) as Hstep.
  unfold _is_done in Hstep. rewrite cell_eqb_refl in Hstep.
  eexists. split; [exact Hstep | reflexivity].
Qed.

Lemma target_precedes_forbidden_witness :
  action_space (self (Tests.started Tests.overlap_env)) = args.action_space
  /\ small_grid (self (Tests.started Tests.overlap_env))
  /\ traj (self (Tests.started Tests.overlap_env)) = Some [Cell (0, 0)]
  /\ In (target_state (self (Tests.started Tests.overlap_env)))
        (forbidden_states (self (Tests.started Tests.overlap_env)))
  /\ in_grid (self (Tests.started Tests.overlap_env))
       (agent_state (self (Tests.started Tests.overlap_env)))
  /\ In (1, 0) args.action_space
  /\ wall_hit (self (Tests.started Tests.overlap_env))
       (agent_state (self (Tests.started Tests.overlap_env))) (1, 0) = false
  /\ Spec.candidate (agent_state (self (Tests.started Tests.overlap_env)))
       (1, 0)
     = target_state (self (Tests.started Tests.overlap_env))
  /\ _get_next_state_and_reward (self (Tests.started Tests.overlap_env))
       (0, 0) (1, 0)
     = ((1, 0), args.reward_target)
  /\ exists w',
       step (1, 0) (Tests.started Tests.overlap_env) =
       (Return ((1, 0), args.reward_target, true, []), w')
       /\ agent_state (self w') = (1, 0).
Proof.
  assert (Hcfg : action_space (self (Tests.started Tests.overlap_env))
                 = args.action_space) by reflexivity.
  assert (Hsmall : small_grid (self (Tests.started Tests.overlap_env)))
    by (unfold small_grid; cbn; lia).
  assert (Ht : traj (self (Tests.started Tests.overlap_env))
               = Some [Cell (0, 0)]) by reflexivity.
  assert (Hf : In (target_state (self (Tests.started Tests.overlap_env)))
                  (forbidden_states (self (Tests.started Tests.overlap_env))))
    by (left; reflexivity).
  assert (Hg : in_grid (self (Tests.started Tests.overlap_env))
                 (agent_state (self (Tests.started Tests.overlap_env))))
    by (unfold in_grid; cbn; lia).
  assert (Ha : In (1, 0) args.action_space) by (right; left; reflexivity).
  assert (Hw : wall_hit (self (Tests.started Tests.overlap_env))
                 (agent_state (self (Tests.started Tests.overlap_env))) (1, 0)
               = false) by reflexivity.
  assert (Hc : Spec.candidate
                 (agent_state (self (Tests.started Tests.overlap_env))) (1, 0)
               = target_state (self (Tests.started Tests.overlap_env)))
    by reflexivity.
  split; [exact Hcfg |]. split; [exact Hsmall |]. split; [exact Ht |].
  split; [exact Hf |].
  split; [exact Hg |]. split; [exact Ha |]. split; [exact Hw |].
  split; [exact Hc |].
  exact (target_precedes_forbidden (Tests.started Tests.overlap_env) (1, 0)
           [Cell (0, 0)] Hcfg Hsmall Ht Hf Hg Ha Hw Hc).
Defined.

(** C8 as it was stated, without a bound on the grid, fails: on a grid
    of [2^64] rows whose target [(2^63, 0)] is listed as forbidden, the
    agent on [(2^63 - 1, 0)] moves "right"; no wall test holds and
    [position + action] is the target, but NumPy's sum wraps around to
    [(-2^63, 0)], which is neither the target nor forbidden: the code
    moves the agent there with the step reward. *)
Lemma target_missed_on_wide_grid :
  action_space (self (Tests.started Wide.overlap_env)) = args.action_space
  /\ traj (self (Tests.started Wide.overlap_env))
     = Some [Cell (2 ^ 63 - 1, 0)]
  /\ In (target_state (self (Tests.started Wide.overlap_env)))
        (forbidden_states (self (Tests.started Wide.overlap_env)))
  /\ in_grid (self (Tests.started Wide.overlap_env))
       (agent_state (self (Tests.started Wide.overlap_env)))
  /\ In (1, 0) args.action_space
  /\ wall_hit (self (Tests.started Wide.overlap_env))
       (agent_state (self (Tests.started Wide.overlap_env))) (1, 0) = false
  /\ Spec.candidate (agent_state (self (Tests.started Wide.overlap_env)))
       (1, 0)
     = target_state (self (Tests.started Wide.overlap_env))
  /\ _get_next_state_and_reward (self (Tests.started Wide.overlap_env))
       (agent_state (self (Tests.started Wide.overlap_env))) (1, 0)
     = ((- 2 ^ 63, 0), args.reward_step)
  /\ _get_next_state_and_reward (self (Tests.started Wide.overlap_env))
       (agent_state (self (Tests.started Wide.overlap_env))) (1, 0)
     <> (target_state (self (Tests.started Wide.overlap_env)),
         reward_target (self (Tests.started Wide.overlap_env)))
  /\ fst (step (1, 0) (Tests.started Wide.overlap_env))
     = Return ((- 2 ^ 63, 0), args.reward_step, false, [])
  /\ agent_state (self (snd (step (1, 0) (Tests.started Wide.overlap_env))))
     = (- 2 ^ 63, 0).
Proof.
  split; [reflexivity |]. split; [reflexivity |].
  split; [left; reflexivity |].
  split; [unfold in_grid; cbn; lia |].
  split; [right; left; reflexivity |].
  split; [vm_compute; reflexivity |]. split; [reflexivity |].
  split; [vm_compute; reflexivity |].
  split.
  { intros H. apply (f_equal (fun p => fst (fst p))) in H.
    vm_compute in H. discriminate H. }
  split; vm_compute; reflexivity.
Qed.

(** ** The episode invariant *)

(** C2, as amended: on a grid with fewer than [2^63] rows and fewer
    than [2^63] columns whose start cell is a cell of the grid, [reset]
    followed by any finite sequence of [step] calls with actions of the
    action space returns at every call, and the position returned by
    every call, as well as the agent's position at the end, is a cell
    of the grid. *)
Theorem agent_stays_in_grid (w : world) (actions : list cell) :
  action_space (self w) = args.action_space ->
  small_grid (self w) ->
  in_grid (self w) (start_state (self w)) ->
  Forall (fun a => In a args.action_space) actions ->
  exists outs w',
    (reset ;; step_all actions) w = (Return outs, w')
    /\ length outs = length actions
    /\ Forall (fun o => in_grid (self w) (returned_state o)) outs
    /\ in_grid (self w) (agent_state (self w'))
    /\ env_size (self w') = env_size (self w).
Proof.
  intros Hcfg Hsmall Hstart Hall.
  unfold bind. rewrite reset_returns.
  match goal with |- context [step_all actions ?w1] =>
    destruct (step_all_in_grid actions w1 [Cell (start_state (self w))])
      as [outs [w' [Hrun [Hlen [Henv [Hfin Houts]]]]]];
      [exact Hcfg | exact Hsmall | reflexivity | exact Hstart | exact Hall | ]
  end.
  exists outs, w'. rewrite Hrun.
  split; [reflexivity |]. split; [exact Hlen |]. split; [exact Houts |].
  split; [exact Hfin | exact Henv].
Qed.

Lemma agent_stays_in_grid_witness :
  action_space (self (Tests.fresh Tests.boundary_env)) = args.action_space
  /\ small_grid (self (Tests.fresh Tests.boundary_env))
  /\ in_grid (self (Tests.fresh Tests.boundary_env))
       (start_state (self (Tests.fresh Tests.boundary_env)))
  /\ Forall (fun a => In a args.action_space) [(0, -1); (-1, 0); (1, 0)]
  /\ exists outs w',
       (reset ;; step_all [(0, -1); (-1, 0); (1, 0)])
         (Tests.fresh Tests.boundary_env) = (Return outs, w')
       /\ length outs = 3%nat
       /\ Forall (fun o => in_grid Tests.boundary_env (returned_state o)) outs
       /\ in_grid Tests.boundary_env (agent_state (self w'))
       /\ env_size (self w') = (3, 3).
Proof.
  assert (Hcfg : action_space (self (Tests.fresh Tests.boundary_env))
                 = args.action_space) by reflexivity.
  assert (Hg : in_grid (self (Tests.fresh Tests.boundary_env))
                 (start_state (self (Tests.fresh Tests.boundary_env))))
    by (unfold in_grid; cbn; lia).
  assert (Hall : Forall (fun a => In a args.action_space)
                   [(0, -1); (-1, 0); (1, 0)]).
  { repeat (apply Forall_cons; [cbn; auto 6 |]). apply Forall_nil. }
  assert (Hsmall : small_grid (self (Tests.fresh Tests.boundary_env)))
    by (unfold small_grid; cbn; lia).
  split; [exact Hcfg |]. split; [exact Hsmall |]. split; [exact Hg |].
  split; [exact Hall |].
  exact (agent_stays_in_grid (Tests.fresh Tests.boundary_env)
           [(0, -1); (-1, 0); (1, 0)] Hcfg Hsmall Hg Hall).
Defined.

(** C2 as it was stated, without a bound on the grid, fails: on a grid
    of [2^64] rows whose start cell is [(2^63 - 1, 0)], [reset] and one
    [step((1, 0))] leave the agent on [(-2^63, 0)], which is not a cell
    of the grid. *)
Lemma agent_leaves_wide_grid :
  action_space (self (Tests.fresh Wide.env)) = args.action_space
  /\ in_grid (self (Tests.fresh Wide.env))
       (start_state (self (Tests.fresh Wide.env)))
  /\ Forall (fun a => In a args.action_space) [(1, 0)]
  /\ fst ((reset ;; step_all [(1, 0)]) (Tests.fresh Wide.env))
     = Return [((- 2 ^ 63, 0), args.reward_step, false, [])]
  /\ agent_state
       (self (snd ((reset ;; step_all [(1, 0)]) (Tests.fresh Wide.env))))
     = (- 2 ^ 63, 0)
  /\ ~ in_grid (self (Tests.fresh Wide.env))
         (agent_state
            (self (snd ((reset ;; step_all [(1, 0)])
                          (Tests.fresh Wide.env))))).
Proof.
  split; [reflexivity |].
  split; [unfold in_grid; cbn; lia |].
  split; [apply Forall_cons; [right; left; reflexivity | apply Forall_nil] |].
  split; [vm_compute; reflexivity |].
  split; [vm_compute; reflexivity |].
  assert (E : agent_state
                (self (snd ((reset ;; step_all [(1, 0)])
                              (Tests.fresh Wide.env))))
              = (- 2 ^ 63, 0)) by (vm_compute; reflexivity).
  rewrite E. unfold in_grid. cbn. lia.
Qed.

(** ** The overlays *)

Lemma set_ax_same (g : GridWorld) (a : list artist) :
  ax g = Some a -> set_ax a g = g.
Proof. destruct g; cbn; intros ->; reflexivity. Qed.

Lemma nth_error_enumerate_from {A : Type} (l : list A) :
  forall (s : Z) (n : nat),
    nth_error (enumerate_from s l) n =
    option_map (fun a => (s + Z.of_nat n, a)) (nth_error l n).
Proof.
  induction l as [| a l IH]; intros s n.
  - destruct n; reflexivity.
  - destruct n as [| n].
    + cbn. rewrite Z.add_0_r. reflexivity.
    + cbn [enumerate_from nth_error]. rewrite IH.
      replace (s + 1 + Z.of_nat n) with (s + Z.of_nat (S n)) by lia.
      reflexivity.
Qed.

Lemma length_enumerate_from {A : Type} (l : list A) :
  forall s : Z, length (enumerate_from s l) = length l.
Proof.
  induction l as [| a l IH]; intros s; cbn; [| rewrite IH]; reflexivity.
Qed.

Lemma skipn_cons_nth_error {A : Type} (l : list A) :
  forall (n : nat) (a : A) (rest : list A),
    skipn n l = a :: rest ->
    nth_error l n = Some a /\ skipn (S n) l = rest.
Proof.
  induction l as [| b l IH]; intros n a rest H.
  - destruct n; discriminate H.
  - destruct n as [| n].
    + cbn in H. inversion H; subst. split; reflexivity.
    + cbn [skipn] in H. destruct (IH n a rest H) as [H1 H2].
      split; [exact H1 | exact H2].
Qed.

(** Every patch of a row is anchored at the cell of its state. *)
Lemma row_patches_anchor (g : GridWorld) (x y : Z) (row : list float) :
  Forall (fun a => anchor a = (x, y)) (row_patches g x y row).
Proof.
  unfold row_patches. apply Forall_forall. intros a Ha.
  apply in_map_iff in Ha. destruct Ha as [[p [dx dy]] [<- _]].
  unfold policy_patch.
  destruct (negb (cell_eqb (dx, dy) (0, 0))); reflexivity.
Qed.

(** The loop of [add_state_values] from index [i] on. *)
Lemma add_state_values_loop (str : float -> string) (values : list float) :
  forall (i : Z) (g : GridWorld) (r : nat -> float) (arts : list artist),
    fst (env_size g) <> 0 ->
    ax g = Some arts ->
    for_each (enumerate_from i values) (fun '(i, value) =>
      g <- get_self ;;
      x <- py_mod i (fst (env_size g)) ;;
      y <- py_floordiv i (fst (env_size g)) ;;
      ax_add (Text x y (str value)))
      {| self := g; np_random := r |}
    = (Return tt,
       {| self :=
            set_ax (arts ++ map (fun '(i, value) =>
                                   Text (i mod fst (env_size g))
                                        (i / fst (env_size g)) (str value))
                                (enumerate_from i values)) g;
          np_random := r |}).
Proof.
  induction values as [| v values IH]; intros i g r arts Hrows Hax.
  - cbn. rewrite app_nil_r, set_ax_same by exact Hax. reflexivity.
  - cbn [enumerate_from for_each map].
    unfold bind at 1. unfold bind at 1, get_self at 1. cbn [self].
    unfold bind at 1, py_mod. apply Z.eqb_neq in Hrows. rewrite Hrows.
    unfold ret at 1. unfold bind at 1, py_floordiv. rewrite Hrows.
    unfold ret at 1. unfold ax_add. cbn [self]. rewrite Hax.
    unfold modify_self. cbn [self np_random].
    rewrite (IH (i + 1) _ r (arts ++ [Text (i mod fst (env_size g))
                                          (i / fst (env_size g)) (str v)]));
      [| cbn; apply Z.eqb_neq; exact Hrows | reflexivity].
    cbn [set_ax env_size num_states start_state target_state
         forbidden_states agent_state action_space reward_target
         reward_forbidden reward_step traj ax].
    rewrite <- app_assoc. reflexivity.
Qed.

(** The inner loop of [add_policy]: the row of one state, from column
    [k] on, against the actions from [k] on. *)
Lemma add_policy_row_loop (x y : Z) (row : list float) :
  forall (k : Z) (acts : list cell) (g : GridWorld) (r : nat -> float)
         (arts : list artist),
    0 <= k ->
    skipn (Z.to_nat k) (action_space g) = acts ->
    (length row <= length acts)%nat ->
    ax g = Some arts ->
    for_each (enumerate_from k row) (fun '(i, action_probability) =>
      if negb (action_probability =? 0)%float then
        g <- get_self ;;
        a <- getitem (action_space g) i ;;
        let '(dx, dy) := a in
        if negb (cell_eqb (dx, dy) (0, 0)) then
          ax_add (FancyArrow x y
                    ((0.1 + action_probability / 2) * float_of_Z dx)%float
                    ((0.1 + action_probability / 2) * float_of_Z dy)%float)
        else
          ax_add (Circle x y 0.07%float)
      else ret tt)
      {| self := g; np_random := r |}
    = (Return tt,
       {| self :=
            set_ax (arts ++ map (policy_patch x y)
                              (filter (fun pa => negb (fst pa =? 0)%float)
                                      (combine row acts))) g;
          np_random := r |}).
Proof.
  induction row as [| p row IH]; intros k acts g r arts Hk Hskip Hlen Hax.
  - cbn. rewrite app_nil_r, set_ax_same by exact Hax. reflexivity.
  - destruct acts as [| a acts]; [cbn in Hlen; lia |].
    destruct (skipn_cons_nth_error _ _ _ _ Hskip) as [Hnth Hrest].
    replace (S (Z.to_nat k)) with (Z.to_nat (k + 1)) in Hrest by lia.
    cbn [enumerate_from for_each combine filter fst].
    unfold bind at 1.
    destruct (negb (p =? 0)%float) eqn:Hp.
    + unfold bind at 1, get_self at 1. cbn [self].
      unfold bind at 1, getitem. rewrite Hnth. unfold ret at 1.
      destruct a as [dx dy].
      assert (Hstep :
        (if negb (cell_eqb (dx, dy) (0, 0)) then
           ax_add (FancyArrow x y
                     ((0.1 + p / 2) * float_of_Z dx)%float
                     ((0.1 + p / 2) * float_of_Z dy)%float)
         else ax_add (Circle x y 0.07%float))
          {| self := g; np_random := r |}
        = (Return tt,
           {| self := set_ax (arts ++ [policy_patch x y (p, (dx, dy))]) g;
              np_random := r |})).
      { unfold policy_patch.
        destruct (negb (cell_eqb (dx, dy) (0, 0)));
          unfold ax_add; cbn [self]; rewrite Hax; reflexivity. }
      rewrite Hstep.
      rewrite (IH (k + 1) acts _ r (arts ++ [policy_patch x y (p, (dx, dy))]));
        [| lia | exact Hrest | cbn in Hlen; lia | reflexivity].
      cbn [set_ax env_size num_states start_state target_state
           forbidden_states agent_state action_space reward_target
           reward_forbidden reward_step traj ax map].
      rewrite <- app_assoc. reflexivity.
    + unfold ret at 1.
      apply (IH (k + 1) acts g r arts);
        [lia | exact Hrest | cbn in Hlen; lia | exact Hax].
Qed.

(** The outer loop of [add_policy] from state [s] on. *)
Lemma add_policy_loop (policy_matrix : list (list float)) :
  forall (s : Z) (g : GridWorld) (r : nat -> float) (arts : list artist),
    fst (env_size g) <> 0 ->
    Forall (fun row => (length row <= length (action_space g))%nat)
           policy_matrix ->
    ax g = Some arts ->
    for_each (enumerate_from s policy_matrix)
      (fun '(state, state_action_group) =>
        g <- get_self ;;
        x <- py_mod state (fst (env_size g)) ;;
        y <- py_floordiv state (fst (env_size g)) ;;
        for_each (enumerate state_action_group)
          (fun '(i, action_probability) =>
            if negb (action_probability =? 0)%float then
              g <- get_self ;;
              a <- getitem (action_space g) i ;;
              let '(dx, dy) := a in
              if negb (cell_eqb (dx, dy) (0, 0)) then
                ax_add (FancyArrow x y
                          ((0.1 + action_probability / 2)
                           * float_of_Z dx)%float
                          ((0.1 + action_probability / 2)
                           * float_of_Z dy)%float)
              else
                ax_add (Circle x y 0.07%float)
            else ret tt))
      {| self := g; np_random := r |}
    = (Return tt,
       {| self :=
            set_ax (arts ++ concat
                      (map (fun '(state, row) =>
                              row_patches g (state mod fst (env_size g))
                                (state / fst (env_size g)) row)
                           (enumerate_from s policy_matrix))) g;
          np_random := r |}).
Proof.
  induction policy_matrix as [| row pm IH]; intros s g r arts Hrows Hall Hax.
  - cbn. rewrite app_nil_r, set_ax_same by exact Hax. reflexivity.
  - inversion Hall as [| ? ? Hrow Hpm]; subst.
    cbn [enumerate_from for_each map concat].
    unfold bind at 1. unfold bind at 1, get_self at 1. cbn [self].
    unfold bind at 1, py_mod. pose proof Hrows as Hz.
    apply Z.eqb_neq in Hz. rewrite Hz.
    unfold ret at 1. unfold bind at 1, py_floordiv. rewrite Hz.
    unfold ret at 1. unfold enumerate.
    rewrite (add_policy_row_loop _ _ row 0 (action_space g) g r arts);
      [| lia | reflexivity | exact Hrow | exact Hax].
    fold (row_patches g (s mod fst (env_size g)) (s / fst (env_size g)) row).
    rewrite (IH (s + 1) _ r
               (arts ++ row_patches g (s mod fst (env_size g))
                          (s / fst (env_size g)) row));
      [| exact Hrows | exact Hpm | reflexivity].
    cbn [set_ax env_size num_states start_state target_state
         forbidden_states agent_state action_space reward_target
         reward_forbidden reward_step traj ax].
    rewrite <- app_assoc. reflexivity.
Qed.

(** With axes to draw on and a grid that has rows, [add_policy] returns
    on every matrix whose rows are no longer than the action space, and
    it adds the patches of each row at the cell of the row's index. *)
Lemma add_policy_returns (policy_matrix : list (list float)) (w : world)
    (arts : list artist) :
  fst (env_size (self w)) <> 0 ->
  Forall (fun row => (length row <= length (action_space (self w)))%nat)
         policy_matrix ->
  ax (self w) = Some arts ->
  add_policy policy_matrix w =
  (Return tt,
   {| self :=
        set_ax (arts ++ concat
                  (map (fun '(state, row) =>
                          row_patches (self w)
                            (state mod fst (env_size (self w)))
                            (state / fst (env_size (self w))) row)
                       (enumerate policy_matrix))) (self w);
      np_random := np_random w |}).
Proof.
  destruct w as [g r]. cbn [self np_random]. intros Hrows Hall Hax.
  unfold add_policy, enumerate at 1.
  apply add_policy_loop; assumption.
Qed.

(** With axes to draw on and a grid that has rows, [add_state_values]
    returns, and it writes the text of each value at the cell of the
    value's index. *)
Lemma add_state_values_returns (np_round : float -> Z -> float)
    (str : float -> string) (values : list float) (precision : Z)
    (w : world) (arts : list artist) :
  fst (env_size (self w)) <> 0 ->
  ax (self w) = Some arts ->
  add_state_values np_round str values precision w =
  (Return tt,
   {| self :=
        set_ax (arts ++ map (fun '(i, value) =>
                               Text (i mod fst (env_size (self w)))
                                    (i / fst (env_size (self w)))
                                    (str value))
                            (enumerate
                               (map (fun v => np_round v precision) values)))
               (self w);
      np_random := np_random w |}).
Proof.
  destruct w as [g r]. cbn [self np_random]. intros Hrows Hax.
  unfold add_state_values, enumerate.
  apply add_state_values_loop; assumption.
Qed.

(** On an empty argument both overlays return without drawing. *)
Lemma overlays_of_nothing (np_round : float -> Z -> float)
    (str : float -> string) (precision : Z) (w : world) :
  add_policy [] w = (Return tt, w)
  /\ add_state_values np_round str [] precision w = (Return tt, w).
Proof. split; reflexivity. Qed.

(** C9: with a policy matrix of one row per state and one column per
    action and with one value per state, both overlays return, and for
    every state index [i] in [[0, rows * cols)] the patches that
    [add_policy] draws for row [i] and the text that [add_state_values]
    writes for value [i] are placed at the same cell,
    [x = i % rows] and [y = i // rows]. *)
Theorem overlays_share_index_mapping
    (np_round : float -> Z -> float) (str : float -> string)
    (w : world) (arts : list artist)
    (policy_matrix : list (list float)) (values : list float)
    (precision : Z) :
  ax (self w) = Some arts ->
  policy_shape (self w) policy_matrix ->
  Z.of_nat (length values)
  = fst (env_size (self w)) * snd (env_size (self w)) ->
  exists patches texts w1 w2,
    add_policy policy_matrix w = (Return tt, w1)
    /\ ax (self w1) = Some (arts ++ concat patches)
    /\ add_state_values np_round str values precision w = (Return tt, w2)
    /\ ax (self w2) = Some (arts ++ texts)
    /\ forall i : Z,
         0 <= i < fst (env_size (self w)) * snd (env_size (self w)) ->
         let x := i mod fst (env_size (self w)) in
         let y := i / fst (env_size (self w)) in
         exists row value,
           nth_error policy_matrix (Z.to_nat i) = Some row
           /\ nth_error values (Z.to_nat i) = Some value
           /\ nth_error patches (Z.to_nat i)
              = Some (row_patches (self w) x y row)
           /\ Forall (fun a => anchor a = (x, y))
                     (row_patches (self w) x y row)
           /\ nth_error texts (Z.to_nat i)
              = Some (Text x y (str (np_round value precision))).
Proof.
  intros Hax [Hlen Hcols] Hvals.
  destruct (Z.eq_dec (fst (env_size (self w))) 0) as [Hz | Hnz].
  - (* a grid without rows has no state *)
    rewrite Hz, Z.mul_0_l in Hlen, Hvals.
    destruct policy_matrix; [| cbn in Hlen; lia].
    destruct values; [| cbn in Hvals; lia].
    exists [], [], w, w.
    destruct (overlays_of_nothing np_round str precision w) as [Hp Hv].
    cbn [concat]. rewrite app_nil_r.
    repeat (split; [assumption |]).
    intros i Hi. rewrite Hz in Hi. lia.
  - assert (Hle : Forall (fun row =>
                    (length row <= length (action_space (self w)))%nat)
                    policy_matrix).
    { eapply Forall_impl; [| exact Hcols]. cbn. intros row ->. lia. }
    eexists. eexists. eexists. eexists.
    split; [apply (add_policy_returns policy_matrix w arts Hnz Hle Hax) |].
    split; [reflexivity |].
    split; [apply (add_state_values_returns np_round str values precision
                     w arts Hnz Hax) |].
    split; [reflexivity |].
    intros i Hi x y.
    destruct (nth_error policy_matrix (Z.to_nat i)) as [row |] eqn:Hrow;
      [| apply nth_error_None in Hrow; lia].
    destruct (nth_error values (Z.to_nat i)) as [value |] eqn:Hval;
      [| apply nth_error_None in Hval; lia].
    exists row, value.
    split; [reflexivity |]. split; [reflexivity |].
    split.
    { unfold enumerate. rewrite nth_error_map, nth_error_enumerate_from, Hrow.
      cbn [option_map]. rewrite Z.add_0_l, Z2Nat.id by lia. reflexivity. }
    split; [apply row_patches_anchor |].
    unfold enumerate.
    rewrite nth_error_map, nth_error_enumerate_from, nth_error_map, Hval.
    cbn [option_map]. rewrite Z.add_0_l, Z2Nat.id by lia. reflexivity.
Qed.

Lemma overlays_share_index_mapping_witness :
  ax (self (Tests.rendered Tests.boundary_env)) = Some []
  /\ policy_shape (self (Tests.rendered Tests.boundary_env)) Tests.policy
  /\ Z.of_nat (length Tests.values) = 3 * 3
  /\ exists patches texts w1 w2,
       add_policy Tests.policy (Tests.rendered Tests.boundary_env)
       = (Return tt, w1)
       /\ ax (self w1) = Some ([] ++ concat patches)
       /\ add_state_values Tests.keep Tests.blank Tests.values 1
            (Tests.rendered Tests.boundary_env)
          = (Return tt, w2)
       /\ ax (self w2) = Some ([] ++ texts)
       /\ forall i : Z,
            0 <= i < 3 * 3 ->
            exists row value,
              nth_error Tests.policy (Z.to_nat i) = Some row
              /\ nth_error Tests.values (Z.to_nat i) = Some value
              /\ nth_error patches (Z.to_nat i)
                 = Some (row_patches (self (Tests.rendered Tests.boundary_env))
                           (i mod 3) (i / 3) row)
              /\ Forall (fun a => anchor a = (i mod 3, i / 3))
                        (row_patches
                           (self (Tests.rendered Tests.boundary_env))
                           (i mod 3) (i / 3) row)
              /\ nth_error texts (Z.to_nat i)
                 = Some (Text (i mod 3) (i / 3)
                           (Tests.blank (Tests.keep value 1))).
Proof.
  assert (Hax : ax (self (Tests.rendered Tests.boundary_env)) = Some [])
    by reflexivity.
  assert (Hshape : policy_shape (self (Tests.rendered Tests.boundary_env))
                     Tests.policy).
  { split; [reflexivity |]. cbn.
    repeat (apply Forall_cons; [reflexivity |]). apply Forall_nil. }
  assert (Hvals : Z.of_nat (length Tests.values) = 3 * 3) by reflexivity.
  split; [exact Hax |]. split; [exact Hshape |]. split; [exact Hvals |].
  exact (overlays_share_index_mapping Tests.keep Tests.blank
           (Tests.rendered Tests.boundary_env) [] Tests.policy Tests.values 1
           Hax Hshape Hvals).
Defined.

(** * Further properties *)

(** ** One transition *)

(** The three rewards of the configuration are three different
    numbers. *)
Lemma args_rewards_distinct :
  args.reward_target <> args.reward_forbidden
  /\ args.reward_target <> args.reward_step
  /\ args.reward_forbidden <> args.reward_step.
Proof.
  repeat split; intros H.
  - apply (f_equal (fun r => (r =? 10)%float)) in H. vm_compute in H.
    discriminate H.
  - apply (f_equal (fun r => (r =? 10)%float)) in H. vm_compute in H.
    discriminate H.
  - apply (f_equal (fun r => (r =? -5)%float)) in H. vm_compute in H.
    discriminate H.
Defined.

(** X1: on a grid with fewer than [2^63] rows and fewer than [2^63]
    columns, from a cell of the grid, one of the five actions leaves
    the agent where it is or puts it on the candidate cell; the new
    position is at most one unit move away. *)
Theorem transition_is_local (g : GridWorld) (state action : cell) :
  small_grid g ->
  in_grid g state ->
  In action args.action_space ->
  (fst (_get_next_state_and_reward g state action) = state
   \/ fst (_get_next_state_and_reward g state action)
      = Spec.candidate state action)
  /\ manhattan (fst (_get_next_state_and_reward g state action)) state <= 1.
Proof.
  intros Hsmall Hs Ha.
  assert (Hc : manhattan (Spec.candidate state action) state <= 1).
  { unfold manhattan, Spec.candidate. cbn [fst snd].
    apply action_space_cases in Ha.
    destruct Ha as [-> | [-> | [-> | [-> | ->]]]]; cbn; lia. }
  assert (H0 : manhattan state state <= 1) by (unfold manhattan; lia).
  destruct (wall_hit g state action) eqn:W.
  - rewrite transition_wall by assumption. cbn [fst]. split; [left |]; auto.
  - rewrite transition_no_wall by assumption. cbv zeta.
    destruct (cell_eqb (Spec.candidate state action) (target_state g)) eqn:Et.
    + apply cell_eqb_eq in Et. cbn [fst]. rewrite <- Et.
      split; [right |]; auto.
    + destruct (cell_in (Spec.candidate state action) (forbidden_states g));
        cbn [fst]; (split; [(left; reflexivity) || (right; reflexivity) |]);
        assumption.
Qed.

Lemma transition_is_local_witness :
  small_grid Tests.forbidden_env
  /\ in_grid Tests.forbidden_env (0, 0)
  /\ In (1, 0) args.action_space
  /\ (fst (_get_next_state_and_reward Tests.forbidden_env (0, 0) (1, 0))
      = (0, 0)
      \/ fst (_get_next_state_and_reward Tests.forbidden_env (0, 0) (1, 0))
         = Spec.candidate (0, 0) (1, 0))
  /\ manhattan
       (fst (_get_next_state_and_reward Tests.forbidden_env (0, 0) (1, 0)))
       (0, 0) <= 1.
Proof.
  assert (Hsmall : small_grid Tests.forbidden_env)
    by (unfold small_grid; cbn; lia).
  assert (Hg : in_grid Tests.forbidden_env (0, 0))
    by (unfold in_grid; cbn; lia).
  assert (Ha : In (1, 0) args.action_space) by (right; left; reflexivity).
  split; [exact Hsmall |]. split; [exact Hg |]. split; [exact Ha |].
  exact (transition_is_local Tests.forbidden_env (0, 0) (1, 0)
           Hsmall Hg Ha).
Defined.

(** X2: on a grid with fewer than [2^63] rows and fewer than [2^63]
    columns, when the three rewards are three different numbers, the
    reward of a transition from a cell of the grid with one of the five
    actions tells what happened: the
    target reward is paid only for a move, through no wall, whose
    candidate cell is the target; the step reward only for a move onto
    a candidate cell that is neither the target nor forbidden; the
    forbidden reward only when the agent is left where it was. *)
Theorem reward_tells_the_move (g : GridWorld) (state action : cell) :
  reward_target g <> reward_forbidden g ->
  reward_target g <> reward_step g ->
  reward_forbidden g <> reward_step g ->
  small_grid g ->
  in_grid g state ->
  In action args.action_space ->
  let next_state := fst (_get_next_state_and_reward g state action) in
  let reward := snd (_get_next_state_and_reward g state action) in
  (reward = reward_target g ->
   wall_hit g state action = false
   /\ Spec.candidate state action = target_state g
   /\ next_state = target_state g)
  /\ (reward = reward_step g ->
      next_state = Spec.candidate state action
      /\ next_state <> target_state g
      /\ ~ In next_state (forbidden_states g))
  /\ (reward = reward_forbidden g -> next_state = state).
Proof.
  intros Htf Hts Hfs Hsmall Hs Ha. cbv zeta.
  destruct (wall_hit g state action) eqn:W.
  - rewrite transition_wall by assumption. cbn [fst snd].
    split; [intros H | split; intros H]; [congruence | congruence | reflexivity].
  - rewrite transition_no_wall by assumption. cbv zeta.
    destruct (cell_eqb (Spec.candidate state action) (target_state g)) eqn:Et.
    + apply cell_eqb_eq in Et. cbn [fst snd].
      split; [intros H | split; intros H]; [auto | congruence | congruence].
    + apply cell_eqb_neq in Et.
      destruct (cell_in (Spec.candidate state action) (forbidden_states g))
        eqn:Ef; cbn [fst snd].
      * split; [intros H | split; intros H];
          [congruence | congruence | reflexivity].
      * apply cell_in_not_In in Ef.
        split; [intros H | split; intros H]; [congruence | auto | congruence].
Qed.

Lemma reward_tells_the_move_witness :
  reward_target Tests.target_env <> reward_forbidden Tests.target_env
  /\ reward_target Tests.target_env <> reward_step Tests.target_env
  /\ reward_forbidden Tests.target_env <> reward_step Tests.target_env
  /\ small_grid Tests.target_env
  /\ in_grid Tests.target_env (1, 1)
  /\ In (1, 0) args.action_space
  /\ (snd (_get_next_state_and_reward Tests.target_env (1, 1) (1, 0))
      = reward_target Tests.target_env ->
      wall_hit Tests.target_env (1, 1) (1, 0) = false
      /\ Spec.candidate (1, 1) (1, 0) = target_state Tests.target_env
      /\ fst (_get_next_state_and_reward Tests.target_env (1, 1) (1, 0))
         = target_state Tests.target_env)
  /\ (snd (_get_next_state_and_reward Tests.target_env (1, 1) (1, 0))
      = reward_step Tests.target_env ->
      fst (_get_next_state_and_reward Tests.target_env (1, 1) (1, 0))
      = Spec.candidate (1, 1) (1, 0)
      /\ fst (_get_next_state_and_reward Tests.target_env (1, 1) (1, 0))
         <> target_state Tests.target_env
      /\ ~ In (fst (_get_next_state_and_reward Tests.target_env (1, 1) (1, 0)))
              (forbidden_states Tests.target_env))
  /\ (snd (_get_next_state_and_reward Tests.target_env (1, 1) (1, 0))
      = reward_forbidden Tests.target_env ->
      fst (_get_next_state_and_reward Tests.target_env (1, 1) (1, 0))
      = (1, 1)).
Proof.
  destruct args_rewards_distinct as [Htf [Hts Hfs]].
  assert (Hsmall : small_grid Tests.target_env)
    by (unfold small_grid; cbn; lia).
  assert (Hg : in_grid Tests.target_env (1, 1))
    by (unfold in_grid; cbn; lia).
  assert (Ha : In (1, 0) args.action_space) by (right; left; reflexivity).
  split; [exact Htf |]. split; [exact Hts |]. split; [exact Hfs |].
  split; [exact Hsmall |]. split; [exact Hg |]. split; [exact Ha |].
  exact (reward_tells_the_move Tests.target_env (1, 1) (1, 0)
           Htf Hts Hfs Hsmall Hg Ha).
Defined.

(** ** One call of step *)







(** ** Episodes *)

(** The transition function and the termination test read the map
    only. *)
Lemma transition_static (g1 g2 : GridWorld) (state action : cell) :
  static_map g1 = static_map g2 ->
  _get_next_state_and_reward g1 state action
  = _get_next_state_and_reward g2 state action.
Proof.
  unfold static_map. intros H. inversion H as [[He Hs Ht Hf Ha Hrt Hrf Hrs]].
  unfold _get_next_state_and_reward.
  rewrite He, Ht, Hf, Hrt, Hrf, Hrs. reflexivity.
Qed.

Lemma is_done_static (g1 g2 : GridWorld) (state : cell) :
  static_map g1 = static_map g2 -> _is_done g1 state = _is_done g2 state.
Proof.
  unfold static_map. intros H. inversion H as [[He Hs Ht Hf Ha Hrt Hrf Hrs]].
  unfold _is_done. rewrite Ht. reflexivity.
Qed.

Lemma replay_static (g1 g2 : GridWorld) (actions : list cell) :
  static_map g1 = static_map g2 ->
  forall state, replay g1 state actions = replay g2 state actions.
Proof.
  intros H. induction actions as [| a rest IH]; intros state; cbn [replay].
  - reflexivity.
  - rewrite (transition_static g1 g2 state a H).
    destruct (_get_next_state_and_reward g2 state a) as [ns r].
    rewrite (is_done_static g1 g2 ns H), IH. reflexivity.
Qed.

Lemma length_replay (g : GridWorld) (actions : list cell) :
  forall state, length (replay g state actions) = length actions.
Proof.
  induction actions as [| a rest IH]; intros state; cbn [replay].
  - reflexivity.
  - destruct (_get_next_state_and_reward g state a) as [ns r].
    cbn [length]. rewrite IH. reflexivity.
Qed.

Lemma last_cons_default {A : Type} (l : list A) :
  forall x d : A, last (x :: l) d = last l x.
Proof.
  induction l as [| y l IH]; intros x d.
  - reflexivity.
  - change (last (x :: y :: l) d) with (last (y :: l) d).
    rewrite (IH y d), (IH y x). reflexivity.
Qed.

(** A sequence of valid [step] calls on a world that has a trajectory:
    every call returns, the returned values are those of [replay], and
    the world is left with the final position, the recorded points
    appended, two samples drawn per call, and nothing else changed. *)
Lemma step_all_closed_form (actions : list cell) :
  forall (w : world) (t : list point),
    action_space (self w) = args.action_space ->
    traj (self w) = Some t ->
    Forall (fun a => In a args.action_space) actions ->
    let outs := replay (self w) (agent_state (self w)) actions in
    exists w',
      step_all actions w = (Return outs, w')
      /\ static_map (self w') = static_map (self w)
      /\ agent_state (self w') = final_state (agent_state (self w)) outs
      /\ traj (self w') = Some (t ++ recorded (np_random w) actions outs)
      /\ ax (self w') = ax (self w)
      /\ forall k, np_random w' k
                   = np_random w (2 * length actions + k)%nat.
Proof.
  induction actions as [| a rest IH]; intros w t Hcfg Ht Hall; cbv zeta.
  - exists w. cbn. rewrite app_nil_r. repeat split. exact Ht.
  - inversion Hall as [| ? ? Ha Hrest]; subst.
    cbn [replay].
    destruct (_get_next_state_and_reward (self w) (agent_state (self w)) a)
      as [ns r] eqn:Hnr.
    assert (Hmem : cell_in a (action_space (self w)) = true)
      by (rewrite Hcfg; apply cell_in_In; exact Ha).
    pose proof (step_returns w a t Ht Hmem ns r Hnr) as Hstep.
    match type of Hstep with _ = (_, ?w1) =>
      destruct (IH w1 (t ++ [state_store ns a (np_random w 0%nat)
                               (np_random w 1%nat); Cell ns]))
        as [w' [Hrun [Hmap [Hpos [Htraj [Hax Hrng]]]]]];
        [exact Hcfg | reflexivity | exact Hrest | ];
      assert (Hsame : static_map (self w1) = static_map (self w))
        by reflexivity
    end.
    cbn [self agent_state set_traj set_agent_state np_random] in *.
    rewrite (replay_static _ (self w) rest Hsame) in Hrun, Hpos, Htraj.
    exists w'. cbn [step_all]. unfold bind at 1. rewrite Hstep.
    unfold bind at 1. rewrite Hrun. unfold ret.
    split; [reflexivity |]. split; [rewrite Hmap; exact Hsame |].
    split.
    { rewrite Hpos. unfold final_state. cbn [map returned_state fst].
      rewrite last_cons_default. reflexivity. }
    split.
    { rewrite Htraj. cbn [recorded returned_state fst].
      rewrite <- app_assoc. reflexivity. }
    split; [exact Hax |].
    intros k. rewrite Hrng. unfold advance. f_equal. cbn [length]. lia.
Qed.

(** On a small grid, from a cell of the grid the agent may stand on,
    every valid transition leads to a cell it may stand on. *)
Lemma transition_allowed (g : GridWorld) (state action : cell) :
  small_grid g ->
  in_grid g state ->
  In action args.action_space ->
  allowed g state ->
  allowed g (fst (_get_next_state_and_reward g state action)).
Proof.
  intros Hsmall Hs Ha Hal.
  destruct (wall_hit g state action) eqn:W.
  - rewrite transition_wall by assumption. exact Hal.
  - rewrite transition_no_wall by assumption. cbv zeta.
    destruct (cell_eqb (Spec.candidate state action) (target_state g)) eqn:Et.
    + right. reflexivity.
    + destruct (cell_in (Spec.candidate state action) (forbidden_states g))
        eqn:Ef; cbn [fst].
      * exact Hal.
      * left. apply cell_in_not_In. exact Ef.
Qed.

Lemma replay_allowed (g : GridWorld) (actions : list cell) :
  small_grid g ->
  forall state,
    in_grid g state ->
    allowed g state ->
    Forall (fun a => In a args.action_space) actions ->
    Forall (fun o => allowed g (returned_state o)) (replay g state actions)
    /\ allowed g (final_state state (replay g state actions)).
Proof.
  intros Hsmall.
  induction actions as [| a rest IH]; intros state Hs Hal Hall.
  - split; [constructor | exact Hal].
  - inversion Hall as [| ? ? Ha Hrest]; subst.
    pose proof (transition_in_grid g state a Hsmall Hs Ha) as Hin.
    pose proof (transition_allowed g state a Hsmall Hs Ha Hal) as Hnext.
    cbn [replay].
    destruct (_get_next_state_and_reward g state a) as [ns r].
    cbn [fst] in Hin, Hnext.
    destruct (IH ns Hin Hnext Hrest) as [H1 H2].
    split.
    + constructor; [exact Hnext | exact H1].
    + unfold final_state in *. cbn [map returned_state fst].
      rewrite last_cons_default. exact H2.
Qed.

(** X6: on a grid with fewer than [2^63] rows and fewer than [2^63]
    columns whose start cell is a cell of the grid that is not
    forbidden (or is the target), [reset] followed by any sequence of
    valid [step] calls never puts the agent on a forbidden cell other
    than the target: every returned position and the final position are
    cells the agent may stand on. *)
Theorem forbidden_cells_never_entered (w : world) (actions : list cell) :
  action_space (self w) = args.action_space ->
  small_grid (self w) ->
  in_grid (self w) (start_state (self w)) ->
  allowed (self w) (start_state (self w)) ->
  Forall (fun a => In a args.action_space) actions ->
  exists outs w',
    (reset ;; step_all actions) w = (Return outs, w')
    /\ Forall (fun o => allowed (self w) (returned_state o)) outs
    /\ allowed (self w) (agent_state (self w')).
Proof.
  intros Hcfg Hsmall Hstart Hal Hall.
  unfold bind. rewrite reset_returns.
  match goal with |- context [step_all actions ?w1] =>
    destruct (step_all_closed_form actions w1 [Cell (start_state (self w))]
                Hcfg eq_refl Hall)
      as [w' [Hrun [_ [Hpos _]]]];
    assert (Hsame : static_map (self w1) = static_map (self w))
      by reflexivity
  end.
  cbn [self agent_state set_traj set_agent_state] in Hrun, Hpos.
  rewrite (replay_static _ (self w) actions Hsame) in Hrun, Hpos.
  destruct (replay_allowed (self w) actions Hsmall _ Hstart Hal Hall)
    as [H1 H2].
  eexists. exists w'. rewrite Hrun.
  split; [reflexivity |]. split; [exact H1 |]. rewrite Hpos. exact H2.
Qed.

Lemma forbidden_cells_never_entered_witness :
  action_space (self (Tests.fresh Tests.forbidden_env)) = args.action_space
  /\ small_grid (self (Tests.fresh Tests.forbidden_env))
  /\ in_grid (self (Tests.fresh Tests.forbidden_env))
       (start_state (self (Tests.fresh Tests.forbidden_env)))
  /\ allowed (self (Tests.fresh Tests.forbidden_env))
       (start_state (self (Tests.fresh Tests.forbidden_env)))
  /\ Forall (fun a => In a args.action_space) [(1, 0); (0, 1); (1, 0)]
  /\ exists outs w',
       (reset ;; step_all [(1, 0); (0, 1); (1, 0)])
         (Tests.fresh Tests.forbidden_env) = (Return outs, w')
       /\ Forall (fun o => allowed Tests.forbidden_env (returned_state o)) outs
       /\ allowed Tests.forbidden_env (agent_state (self w')).
Proof.
  assert (Hcfg : action_space (self (Tests.fresh Tests.forbidden_env))
                 = args.action_space) by reflexivity.
  assert (Hg : in_grid (self (Tests.fresh Tests.forbidden_env))
                 (start_state (self (Tests.fresh Tests.forbidden_env))))
    by (unfold in_grid; cbn; lia).
  assert (Hal : allowed (self (Tests.fresh Tests.forbidden_env))
                  (start_state (self (Tests.fresh Tests.forbidden_env)))).
  { left. cbn. intros [H | []]. discriminate H. }
  assert (Hall : Forall (fun a => In a args.action_space)
                   [(1, 0); (0, 1); (1, 0)]).
  { repeat (apply Forall_cons; [cbn; auto 6 |]). apply Forall_nil. }
  assert (Hsmall : small_grid (self (Tests.fresh Tests.forbidden_env)))
    by (unfold small_grid; cbn; lia).
  split; [exact Hcfg |]. split; [exact Hsmall |]. split; [exact Hg |].
  split; [exact Hal |]. split; [exact Hall |].
  exact (forbidden_cells_never_entered (Tests.fresh Tests.forbidden_env)
           [(1, 0); (0, 1); (1, 0)] Hcfg Hsmall Hg Hal Hall).
Defined.







(** One [step] call on two worlds with the same dynamics: the same
    outcome, and the same dynamics afterwards. *)
Lemma step_same_dynamics (action : cell) (w1 w2 : world) :
  same_dynamics w1 w2 ->
  fst (step action w1) = fst (step action w2)
  /\ same_dynamics (snd (step action w1)) (snd (step action w2)).
Proof.
  intros [Hmap [Hpos Htr]].
  assert (Has : action_space (self w1) = action_space (self w2)).
  { unfold static_map in Hmap. inversion Hmap. reflexivity. }
  unfold step, bind, get_self, assert. rewrite Has.
  destruct (cell_in action (action_space (self w2))).
  2: { cbn. split; [reflexivity |]. repeat split; tauto. }
  unfold ret at 1. unfold ret at 3.
  rewrite (transition_static _ _ _ _ Hmap), Hpos.
  destruct (_get_next_state_and_reward (self w2) (agent_state (self w2)) action)
    as [ns r].
  rewrite (is_done_static _ _ _ Hmap).
  unfold randn, modify_self, traj_append, ret, raise; cbn.
  destruct (traj (self w1)) as [t1 |] eqn:E1;
    destruct (traj (self w2)) as [t2 |] eqn:E2; cbn.
  - split; [reflexivity |]. unfold same_dynamics; cbn.
    unfold static_map in *; cbn. repeat split; try assumption; discriminate.
  - exfalso. destruct Htr as [_ H]. specialize (H eq_refl). discriminate H.
  - exfalso. destruct Htr as [H _]. specialize (H eq_refl). discriminate H.
  - split; [reflexivity |]. unfold same_dynamics; cbn.
    unfold static_map in *; cbn. rewrite E1, E2.
    repeat split; try assumption; reflexivity.
Qed.

Lemma step_all_same_dynamics (actions : list cell) :
  forall w1 w2 : world,
    same_dynamics w1 w2 ->
    fst (step_all actions w1) = fst (step_all actions w2)
    /\ same_dynamics (snd (step_all actions w1)) (snd (step_all actions w2)).
Proof.
  induction actions as [| a rest IH]; intros w1 w2 H.
  - cbn. split; [reflexivity | exact H].
  - cbn [step_all]. unfold bind.
    destruct (step_same_dynamics a w1 w2 H) as [Ho Hd].
    destruct (step a w1) as [o1 w1'], (step a w2) as [o2 w2'].
    cbn [fst snd] in Ho, Hd. subst o2.
    destruct o1 as [o | e]; [| cbn; split; [reflexivity | exact Hd]].
    destruct (IH w1' w2' Hd) as [Ho' Hd'].
    destruct (step_all rest w1') as [os1 w1''],
             (step_all rest w2') as [os2 w2''].
    cbn [fst snd] in Ho', Hd'. subst os2.
    destruct os1; cbn; split; try reflexivity; exact Hd'.
Qed.

(** X9: the samples of the generator reach the trajectory only.  On the
    same instance, with any two generators, [reset] followed by any
    sequence of [step] calls (valid or not) gives the same outcome:
    the same positions, rewards and flags or the same exception, and
    the same final position of the agent. *)
Theorem samples_never_steer (g : GridWorld) (r1 r2 : nat -> float)
    (actions : list cell) :
  fst ((reset ;; step_all actions) {| self := g; np_random := r1 |})
  = fst ((reset ;; step_all actions) {| self := g; np_random := r2 |})
  /\ agent_state
       (self (snd ((reset ;; step_all actions)
                     {| self := g; np_random := r1 |})))
     = agent_state
         (self (snd ((reset ;; step_all actions)
                       {| self := g; np_random := r2 |}))).
Proof.
  unfold bind. rewrite !reset_returns. cbn [self np_random].
  match goal with |- context [step_all actions ?a] =>
    match goal with |- context [step_all actions ?b] =>
      tryif constr_eq a b then fail else
        destruct (step_all_same_dynamics actions a b) as [Ho [_ [Hp _]]]
    end
  end.
  { unfold same_dynamics; cbn. repeat split; intros; assumption. }
  split; [exact Ho | exact Hp].
Qed.

(** ** The overlays on any input *)

(** The two loop bodies of [add_policy], and the one of
    [add_state_values]. *)
Local Abbreviation row_body x y :=
  (fun '(i, action_probability) =>
     if negb (action_probability =? 0)%float then
       g <- get_self ;;
       a <- getitem (action_space g) i ;;
       let '(dx, dy) := a in
       if negb (cell_eqb (dx, dy) (0, 0)) then
         ax_add (FancyArrow x y
                   ((0.1 + action_probability / 2) * float_of_Z dx)%float
                   ((0.1 + action_probability / 2) * float_of_Z dy)%float)
       else
         ax_add (Circle x y 0.07%float)
     else ret tt).

Local Abbreviation policy_body :=
  (fun '(state, state_action_group) =>
     g <- get_self ;;
     x <- py_mod state (fst (env_size g)) ;;
     y <- py_floordiv state (fst (env_size g)) ;;
     for_each (enumerate state_action_group) (row_body x y)).

Local Abbreviation values_body str :=
  (fun '(i, value) =>
     g <- get_self ;;
     x <- py_mod i (fst (env_size g)) ;;
     y <- py_floordiv i (fst (env_size g)) ;;
     ax_add (Text x y (str value))).

Lemma add_policy_unfold (policy_matrix : list (list float)) :
  add_policy policy_matrix = for_each (enumerate policy_matrix) policy_body.
Proof. reflexivity. Qed.

Lemma add_state_values_unfold (np_round : float -> Z -> float)
    (str : float -> string) (values : list float) (precision : Z) :
  add_state_values np_round str values precision
  = for_each (enumerate (map (fun v => np_round v precision) values))
      (values_body str).
Proof. reflexivity. Qed.

Lemma overlay_only_refl (w : world) : overlay_only w w.
Proof.
  unfold overlay_only, same_episode, axes_extended.
  repeat split. destruct (ax (self w)) as [a |]; [| exact I].
  exists []. rewrite app_nil_r. reflexivity.
Qed.

Lemma overlay_only_trans (w1 w2 w3 : world) :
  overlay_only w1 w2 -> overlay_only w2 w3 -> overlay_only w1 w3.
Proof.
  unfold overlay_only, same_episode, axes_extended.
  intros [[Hm1 [Hp1 [Ht1 Hr1]]] Ha1] [[Hm2 [Hp2 [Ht2 Hr2]]] Ha2].
  split.
  - repeat split; congruence.
  - destruct (ax (self w1)) as [a1 |], (ax (self w2)) as [a2 |],
             (ax (self w3)) as [a3 |]; try contradiction; try exact I.
    destruct Ha1 as [m1 ->], Ha2 as [m2 ->].
    exists (m1 ++ m2). rewrite app_assoc. reflexivity.
Qed.

Lemma ax_add_overlay_only (a : artist) (w : world) :
  overlay_only w (snd (ax_add a w)).
Proof.
  unfold ax_add. destruct (ax (self w)) as [l |] eqn:E.
  - unfold overlay_only, same_episode, axes_extended; cbn.
    rewrite E. repeat split. exists [a]. reflexivity.
  - apply overlay_only_refl.
Qed.

Lemma bind_overlay_only {A B : Type} (m : method A) (k : A -> method B)
    (w : world) :
  overlay_only w (snd (m w)) ->
  (forall (a : A) (w1 : world), overlay_only w1 (snd (k a w1))) ->
  overlay_only w (snd (bind m k w)).
Proof.
  intros Hm Hk. unfold bind. destruct (m w) as [[a | e] w1]; cbn [snd] in *.
  - apply (overlay_only_trans w w1); [exact Hm | apply Hk].
  - exact Hm.
Qed.

Lemma for_each_overlay_only {A : Type} (body : A -> method unit) :
  (forall (a : A) (w : world), overlay_only w (snd (body a w))) ->
  forall (l : list A) (w : world), overlay_only w (snd (for_each l body w)).
Proof.
  intros Hbody l. induction l as [| a l IH]; intros w; cbn [for_each].
  - apply overlay_only_refl.
  - apply bind_overlay_only; [apply Hbody | intros _ w1; apply IH].
Qed.

Lemma py_mod_pure (a b : Z) (w : world) : snd (py_mod a b w) = w.
Proof. unfold py_mod. destruct (b =? 0); reflexivity. Qed.

Lemma py_floordiv_pure (a b : Z) (w : world) : snd (py_floordiv a b w) = w.
Proof. unfold py_floordiv. destruct (b =? 0); reflexivity. Qed.

Lemma getitem_pure {A : Type} (l : list A) (i : Z) (w : world) :
  snd (getitem l i w) = w.
Proof. unfold getitem. destruct (nth_error l (Z.to_nat i)); reflexivity. Qed.

Lemma row_body_overlay_only (x y : Z) (ip : Z * float) (w : world) :
  overlay_only w (snd (row_body x y ip w)).
Proof.
  destruct ip as [i p].
  destruct (negb (p =? 0)%float); [| apply overlay_only_refl].
  apply bind_overlay_only; [apply overlay_only_refl |].
  intros g w1. apply bind_overlay_only.
  - rewrite getitem_pure. apply overlay_only_refl.
  - intros [dx dy] w2.
    destruct (negb (cell_eqb (dx, dy) (0, 0))); apply ax_add_overlay_only.
Qed.

Lemma policy_body_overlay_only (sr : Z * list float) (w : world) :
  overlay_only w (snd (policy_body sr w)).
Proof.
  destruct sr as [s row].
  apply bind_overlay_only; [apply overlay_only_refl |].
  intros g w1. apply bind_overlay_only.
  { rewrite py_mod_pure. apply overlay_only_refl. }
  intros x w2. apply bind_overlay_only.
  { rewrite py_floordiv_pure. apply overlay_only_refl. }
  intros y w3. apply for_each_overlay_only. intros ip w4.
  apply row_body_overlay_only.
Qed.

Lemma values_body_overlay_only (str : float -> string) (iv : Z * float)
    (w : world) :
  overlay_only w (snd (values_body str iv w)).
Proof.
  destruct iv as [i v].
  apply bind_overlay_only; [apply overlay_only_refl |].
  intros g w1. apply bind_overlay_only.
  { rewrite py_mod_pure. apply overlay_only_refl. }
  intros x w2. apply bind_overlay_only.
  { rewrite py_floordiv_pure. apply overlay_only_refl. }
  intros y w3. apply ax_add_overlay_only.
Qed.

(** X10: whatever their argument and whether they return or raise,
    [add_policy] and [add_state_values] leave the map, the agent's
    position, the trajectory and the generator as they were, and they
    only ever add artists after the ones the axes already hold. *)
Theorem overlays_only_draw (np_round : float -> Z -> float)
    (str : float -> string) (policy_matrix : list (list float))
    (values : list float) (precision : Z) (w : world) :
  overlay_only w (snd (add_policy policy_matrix w))
  /\ overlay_only w (snd (add_state_values np_round str values precision w)).
Proof.
  split.
  - rewrite add_policy_unfold. apply for_each_overlay_only.
    intros sr w1. apply policy_body_overlay_only.
  - rewrite add_state_values_unfold. apply for_each_overlay_only.
    intros iv w1. apply values_body_overlay_only.
Qed.

(** X11: on a map whose first size is 0 both overlays raise the
    division error at their first element, before they draw, and leave
    the world as it was. *)
Theorem overlays_divide_by_rows (np_round : float -> Z -> float)
    (str : float -> string) (policy_matrix : list (list float))
    (values : list float) (precision : Z) (w : world) :
  fst (env_size (self w)) = 0 ->
  (policy_matrix <> [] ->
   add_policy policy_matrix w = (Raise ZeroDivisionError, w))
  /\ (values <> [] ->
      add_state_values np_round str values precision w
      = (Raise ZeroDivisionError, w)).
Proof.
  intros Hz. split.
  - intros Hp.
    destruct policy_matrix as [| row pm]; [contradiction Hp; reflexivity |].
    rewrite add_policy_unfold. unfold enumerate.
    cbn [enumerate_from for_each]. unfold bind, get_self, py_mod.
    rewrite Hz. reflexivity.
  - intros Hv.
    destruct values as [| v vs]; [contradiction Hv; reflexivity |].
    rewrite add_state_values_unfold. unfold enumerate.
    cbn [map enumerate_from for_each]. unfold bind, get_self, py_mod.
    rewrite Hz. reflexivity.
Qed.

Lemma overlays_divide_by_rows_witness :
  fst (env_size (self Scenes.no_rows)) = 0
  /\ Tests.policy <> []
  /\ Tests.values <> []
  /\ add_policy Tests.policy Scenes.no_rows
     = (Raise ZeroDivisionError, Scenes.no_rows)
  /\ add_state_values Tests.keep Tests.blank Tests.values 1 Scenes.no_rows
     = (Raise ZeroDivisionError, Scenes.no_rows).
Proof.
  assert (Hz : fst (env_size (self Scenes.no_rows)) = 0) by reflexivity.
  assert (Hp : Tests.policy <> []) by discriminate.
  assert (Hv : Tests.values <> []) by discriminate.
  split; [exact Hz |]. split; [exact Hp |]. split; [exact Hv |].
  destruct (overlays_divide_by_rows Tests.keep Tests.blank Tests.policy
              Tests.values 1 Scenes.no_rows Hz) as [H1 H2].
  exact (conj (H1 Hp) (H2 Hv)).
Defined.

(** A row of zero probabilities is passed over. *)
Lemma row_loop_zero (x y : Z) (row : list float) :
  forall (k : Z) (w : world),
    zero_row row = true ->
    for_each (enumerate_from k row) (row_body x y) w = (Return tt, w).
Proof.
  induction row as [| p row IH]; intros k w Hzero.
  - reflexivity.
  - cbn in Hzero. apply andb_true_iff in Hzero. destruct Hzero as [Hp Hrow].
    cbn [enumerate_from for_each]. unfold bind at 1. rewrite Hp.
    cbn [negb]. unfold ret at 1. apply IH. exact Hrow.
Qed.

Lemma policy_loop_zero (policy_matrix : list (list float)) :
  forall (s : Z) (w : world),
    fst (env_size (self w)) <> 0 ->
    zero_policy policy_matrix = true ->
    for_each (enumerate_from s policy_matrix) policy_body w = (Return tt, w).
Proof.
  induction policy_matrix as [| row pm IH]; intros s w Hrows Hzero.
  - reflexivity.
  - cbn in Hzero. apply andb_true_iff in Hzero. destruct Hzero as [Hrow Hpm].
    cbn [enumerate_from for_each].
    unfold bind at 1. unfold bind at 1, get_self at 1.
    unfold bind at 1, py_mod. pose proof Hrows as Hz.
    apply Z.eqb_neq in Hz. rewrite Hz.
    unfold ret at 1. unfold bind at 1, py_floordiv. rewrite Hz.
    unfold ret at 1. unfold enumerate.
    rewrite (row_loop_zero _ _ row 0 w Hrow).
    apply IH; assumption.
Qed.

(** X12: probabilities that are all zero draw nothing: on a grid that
    has rows, [add_policy] returns on a matrix of zeros of any shape and
    leaves the world as it was, axes or no axes. *)
Theorem zero_policy_draws_nothing (policy_matrix : list (list float))
    (w : world) :
  fst (env_size (self w)) <> 0 ->
  zero_policy policy_matrix = true ->
  add_policy policy_matrix w = (Return tt, w).
Proof.
  intros Hrows Hzero. rewrite add_policy_unfold.
  apply policy_loop_zero; assumption.
Qed.

Lemma zero_policy_draws_nothing_witness :
  fst (env_size (self (Tests.fresh Tests.boundary_env))) <> 0
  /\ zero_policy [[0; 0; 0]; []; [0; 0; 0; 0; 0; 0; 0]]%float = true
  /\ add_policy [[0; 0; 0]; []; [0; 0; 0; 0; 0; 0; 0]]%float
       (Tests.fresh Tests.boundary_env)
     = (Return tt, Tests.fresh Tests.boundary_env).
Proof.
  assert (Hrows : fst (env_size (self (Tests.fresh Tests.boundary_env))) <> 0)
    by (cbn; lia).
  assert (Hzero : zero_policy [[0; 0; 0]; []; [0; 0; 0; 0; 0; 0; 0]]%float
                  = true) by reflexivity.
  split; [exact Hrows |]. split; [exact Hzero |].
  exact (zero_policy_draws_nothing _ (Tests.fresh Tests.boundary_env)
           Hrows Hzero).
Defined.

(** Without axes, the first nonzero probability of a row raises. *)
Lemma row_loop_no_axes (x y : Z) (row : list float) :
  forall (k : Z) (acts : list cell) (w : world),
    ax (self w) = None ->
    0 <= k ->
    skipn (Z.to_nat k) (action_space (self w)) = acts ->
    (length row <= length acts)%nat ->
    zero_row row = false ->
    for_each (enumerate_from k row) (row_body x y) w
    = (Raise (AttributeError "ax"), w).
Proof.
  induction row as [| p row IH]; intros k acts w Hax Hk Hskip Hlen Hnz.
  - discriminate Hnz.
  - destruct acts as [| a acts]; [cbn in Hlen; lia |].
    destruct (skipn_cons_nth_error _ _ _ _ Hskip) as [Hnth Hrest].
    replace (S (Z.to_nat k)) with (Z.to_nat (k + 1)) in Hrest by lia.
    cbn [enumerate_from for_each]. unfold bind at 1.
    cbn in Hnz.
    destruct (p =? 0)%float eqn:Hp; cbn [negb].
    + unfold ret at 1. cbn [andb] in Hnz.
      apply (IH (k + 1) acts w Hax); [lia | exact Hrest | | exact Hnz].
      cbn in Hlen; lia.
    + unfold bind at 1, get_self at 1. unfold bind at 1, getitem.
      rewrite Hnth. unfold ret at 1. destruct a as [dx dy].
      destruct (negb (cell_eqb (dx, dy) (0, 0)));
        unfold ax_add; rewrite Hax; reflexivity.
Qed.

Lemma policy_loop_no_axes (policy_matrix : list (list float)) :
  forall (s : Z) (w : world),
    ax (self w) = None ->
    fst (env_size (self w)) <> 0 ->
    Forall (fun row => (length row <= length (action_space (self w)))%nat)
           policy_matrix ->
    zero_policy policy_matrix = false ->
    for_each (enumerate_from s policy_matrix) policy_body w
    = (Raise (AttributeError "ax"), w).
Proof.
  induction policy_matrix as [| row pm IH]; intros s w Hax Hrows Hall Hnz.
  - discriminate Hnz.
  - inversion Hall as [| ? ? Hrow Hpm]; subst.
    cbn [enumerate_from for_each].
    unfold bind at 1. unfold bind at 1, get_self at 1.
    unfold bind at 1, py_mod. pose proof Hrows as Hz.
    apply Z.eqb_neq in Hz. rewrite Hz.
    unfold ret at 1. unfold bind at 1, py_floordiv. rewrite Hz.
    unfold ret at 1. unfold enumerate.
    cbn in Hnz. destruct (zero_row row) eqn:Hzr.
    + rewrite (row_loop_zero _ _ row 0 w Hzr).
      apply IH; assumption.
    + rewrite (row_loop_no_axes _ _ row 0 (action_space (self w)) w
                 Hax (Z.le_refl 0) eq_refl Hrow Hzr).
      reflexivity.
Qed.

(** X13: before the axes exist (no [render] call yet), and on a grid
    that has rows, [add_policy] on a matrix with a nonzero probability
    (rows no wider than the action space) and [add_state_values] on a
    list that is not empty raise the attribute error of the missing
    axes and leave the world as it was. *)
Theorem overlays_need_axes (np_round : float -> Z -> float)
    (str : float -> string) (policy_matrix : list (list float))
    (values : list float) (precision : Z) (w : world) :
  ax (self w) = None ->
  fst (env_size (self w)) <> 0 ->
  (Forall (fun row => (length row <= length (action_space (self w)))%nat)
          policy_matrix ->
   zero_policy policy_matrix = false ->
   add_policy policy_matrix w = (Raise (AttributeError "ax"), w))
  /\ (values <> [] ->
      add_state_values np_round str values precision w
      = (Raise (AttributeError "ax"), w)).
Proof.
  intros Hax Hrows. split.
  - intros Hall Hnz.
    rewrite add_policy_unfold. apply policy_loop_no_axes; assumption.
  - intros Hv.
    destruct values as [| v vs]; [contradiction Hv; reflexivity |].
    rewrite add_state_values_unfold. unfold enumerate.
    cbn [map enumerate_from for_each]. unfold bind, get_self, py_mod,
      py_floordiv.
    apply Z.eqb_neq in Hrows. rewrite Hrows. unfold ret at 1 2.
    unfold ax_add. rewrite Hax. reflexivity.
Qed.

Lemma overlays_need_axes_witness :
  ax (self (Tests.started Tests.boundary_env)) = None
  /\ fst (env_size (self (Tests.started Tests.boundary_env))) <> 0
  /\ Forall (fun row =>
               (length row
                <= length (action_space
                             (self (Tests.started Tests.boundary_env))))%nat)
            Tests.policy
  /\ zero_policy Tests.policy = false
  /\ Tests.values <> []
  /\ add_policy Tests.policy (Tests.started Tests.boundary_env)
     = (Raise (AttributeError "ax"), Tests.started Tests.boundary_env)
  /\ add_state_values Tests.keep Tests.blank Tests.values 1
       (Tests.started Tests.boundary_env)
     = (Raise (AttributeError "ax"), Tests.started Tests.boundary_env).
Proof.
  assert (Hax : ax (self (Tests.started Tests.boundary_env)) = None)
    by reflexivity.
  assert (Hrows : fst (env_size (self (Tests.started Tests.boundary_env)))
                  <> 0) by (cbn; lia).
  assert (Hall : Forall (fun row =>
                   (length row
                    <= length (action_space
                                 (self (Tests.started Tests.boundary_env))))%nat)
                   Tests.policy).
  { cbn. repeat (apply Forall_cons; [apply Nat.le_refl |]). apply Forall_nil. }
  assert (Hnz : zero_policy Tests.policy = false) by reflexivity.
  assert (Hv : Tests.values <> []) by discriminate.
  split; [exact Hax |]. split; [exact Hrows |]. split; [exact Hall |].
  split; [exact Hnz |]. split; [exact Hv |].
  destruct (overlays_need_axes Tests.keep Tests.blank Tests.policy
              Tests.values 1 (Tests.started Tests.boundary_env) Hax Hrows)
    as [H1 H2].
  exact (conj (H1 Hall Hnz) (H2 Hv)).
Defined.

Lemma for_each_app {A : Type} (body : A -> method unit) (l1 l2 : list A) :
  forall w : world,
    for_each (l1 ++ l2) body w =
    match for_each l1 body w with
    | (Return _, w1) => for_each l2 body w1
    | (Raise e, w1) => (Raise e, w1)
    end.
Proof.
  induction l1 as [| a l1 IH]; intros w.
  - reflexivity.
  - cbn [app for_each]. unfold bind.
    destruct (body a w) as [[u | e] w1]; [apply IH | reflexivity].
Qed.

Lemma enumerate_from_app {A : Type} (l1 l2 : list A) :
  forall s : Z,
    enumerate_from s (l1 ++ l2) =
    enumerate_from s l1 ++ enumerate_from (s + Z.of_nat (length l1)) l2.
Proof.
  induction l1 as [| a l1 IH]; intros s.
  - cbn. rewrite Z.add_0_r. reflexivity.
  - cbn [app enumerate_from length]. rewrite IH.
    replace (s + 1 + Z.of_nat (length l1))
      with (s + Z.of_nat (S (length l1))) by lia.
    reflexivity.
Qed.

(** A row whose probabilities past the action space are all zero is
    drawn like its columns inside the action space. *)
Lemma row_loop_returns_wide (x y : Z) (row : list float) :
  forall (k : Z) (acts : list cell) (g : GridWorld) (r : nat -> float)
         (arts : list artist),
    0 <= k ->
    skipn (Z.to_nat k) (action_space g) = acts ->
    zero_row (skipn (length acts) row) = true ->
    ax g = Some arts ->
    for_each (enumerate_from k row) (row_body x y)
      {| self := g; np_random := r |}
    = (Return tt,
       {| self :=
            set_ax (arts ++ map (policy_patch x y)
                              (filter (fun pa => negb (fst pa =? 0)%float)
                                      (combine row acts))) g;
          np_random := r |}).
Proof.
  induction row as [| p row IH]; intros k acts g r arts Hk Hskip Hzero Hax.
  - cbn. rewrite app_nil_r, set_ax_same by exact Hax. reflexivity.
  - destruct acts as [| a acts].
    + cbn [length skipn] in Hzero.
      rewrite (row_loop_zero x y (p :: row) k _ Hzero).
      cbn [combine filter map].
      rewrite app_nil_r, set_ax_same by exact Hax. reflexivity.
    + cbn [length skipn] in Hzero.
      destruct (skipn_cons_nth_error _ _ _ _ Hskip) as [Hnth Hrest].
      replace (S (Z.to_nat k)) with (Z.to_nat (k + 1)) in Hrest by lia.
      cbn [enumerate_from for_each combine filter fst].
      unfold bind at 1.
      destruct (negb (p =? 0)%float) eqn:Hp.
      * unfold bind at 1, get_self at 1. cbn [self].
        unfold bind at 1, getitem. rewrite Hnth. unfold ret at 1.
        destruct a as [dx dy].
        assert (Hstep :
          (if negb (cell_eqb (dx, dy) (0, 0)) then
             ax_add (FancyArrow x y
                       ((0.1 + p / 2) * float_of_Z dx)%float
                       ((0.1 + p / 2) * float_of_Z dy)%float)
           else ax_add (Circle x y 0.07%float))
            {| self := g; np_random := r |}
          = (Return tt,
             {| self := set_ax (arts ++ [policy_patch x y (p, (dx, dy))]) g;
                np_random := r |})).
        { unfold policy_patch.
          destruct (negb (cell_eqb (dx, dy) (0, 0)));
            unfold ax_add; cbn [self]; rewrite Hax; reflexivity. }
        rewrite Hstep.
        rewrite (IH (k + 1) acts _ r
                   (arts ++ [policy_patch x y (p, (dx, dy))]));
          [| lia | exact Hrest | exact Hzero | reflexivity].
        cbn [set_ax env_size num_states start_state target_state
             forbidden_states agent_state action_space reward_target
             reward_forbidden reward_step traj ax map].
        rewrite <- app_assoc. reflexivity.
      * unfold ret at 1.
        apply (IH (k + 1) acts g r arts);
          [lia | exact Hrest | exact Hzero | exact Hax].
Qed.

Lemma policy_loop_returns_wide (policy_matrix : list (list float)) :
  forall (s : Z) (g : GridWorld) (r : nat -> float) (arts : list artist),
    fst (env_size g) <> 0 ->
    Forall (fun row =>
              zero_row (skipn (length (action_space g)) row) = true)
           policy_matrix ->
    ax g = Some arts ->
    for_each (enumerate_from s policy_matrix) policy_body
      {| self := g; np_random := r |}
    = (Return tt,
       {| self :=
            set_ax (arts ++ concat
                      (map (fun '(state, row) =>
                              row_patches g (state mod fst (env_size g))
                                (state / fst (env_size g)) row)
                           (enumerate_from s policy_matrix))) g;
          np_random := r |}).
Proof.
  induction policy_matrix as [| row pm IH]; intros s g r arts Hrows Hall Hax.
  - cbn. rewrite app_nil_r, set_ax_same by exact Hax. reflexivity.
  - inversion Hall as [| ? ? Hrow Hpm]; subst.
    cbn [enumerate_from for_each map concat].
    unfold bind at 1. unfold bind at 1, get_self at 1. cbn [self].
    unfold bind at 1, py_mod. pose proof Hrows as Hz.
    apply Z.eqb_neq in Hz. rewrite Hz.
    unfold ret at 1. unfold bind at 1, py_floordiv. rewrite Hz.
    unfold ret at 1. unfold enumerate.
    rewrite (row_loop_returns_wide _ _ row 0 (action_space g) g r arts);
      [| lia | reflexivity | exact Hrow | exact Hax].
    fold (row_patches g (s mod fst (env_size g)) (s / fst (env_size g)) row).
    rewrite (IH (s + 1) _ r
               (arts ++ row_patches g (s mod fst (env_size g))
                          (s / fst (env_size g)) row));
      [| exact Hrows | exact Hpm | reflexivity].
    cbn [set_ax env_size num_states start_state target_state
         forbidden_states agent_state action_space reward_target
         reward_forbidden reward_step traj ax].
    rewrite <- app_assoc. reflexivity.
Qed.

(** A row with a nonzero probability past the action space: its columns
    inside the action space are drawn, the zeros after them are passed
    over, and the nonzero one raises. *)
Lemma row_loop_raises (x y : Z) (inrange zeros more : list float)
    (p : float) (g : GridWorld) (r : nat -> float) (arts : list artist) :
  ax g = Some arts ->
  length inrange = length (action_space g) ->
  zero_row zeros = true ->
  (p =? 0)%float = false ->
  for_each (enumerate_from 0 (inrange ++ zeros ++ p :: more)) (row_body x y)
    {| self := g; np_random := r |}
  = (Raise IndexError,
     {| self := set_ax (arts ++ row_patches g x y inrange) g;
        np_random := r |}).
Proof.
  intros Hax Hlen Hzero Hp.
  rewrite enumerate_from_app, for_each_app.
  rewrite (add_policy_row_loop x y inrange 0 (action_space g) g r arts);
    [| lia | reflexivity | lia | exact Hax].
  fold (row_patches g x y inrange).
  rewrite enumerate_from_app, for_each_app.
  rewrite (row_loop_zero x y zeros _ _ Hzero).
  cbn [enumerate_from for_each]. unfold bind at 1. rewrite Hp. cbn [negb].
  unfold bind at 1, get_self at 1. cbn [self].
  unfold bind at 1, getitem.
  cbn [set_ax action_space].
  replace (nth_error (action_space g)
             (Z.to_nat (0 + Z.of_nat (length inrange)
                        + Z.of_nat (length zeros)))) with (@None cell).
  - reflexivity.
  - symmetry. apply nth_error_None. lia.
Qed.

Lemma zero_row_false_split (l : list float) :
  zero_row l = false ->
  exists zeros p more,
    l = zeros ++ p :: more
    /\ zero_row zeros = true /\ (p =? 0)%float = false.
Proof.
  induction l as [| q l IH]; intros H; [discriminate H |].
  cbn in H. destruct (q =? 0)%float eqn:Eq.
  - cbn [andb] in H. destruct (IH H) as [zeros [p [more [-> [Hz Hp]]]]].
    exists (q :: zeros), p, more. repeat split; try assumption.
    cbn. rewrite Eq. exact Hz.
  - exists [], q, l. repeat split. exact Eq.
Qed.

Lemma wide_row_split (n : nat) (row : list float) :
  zero_row (skipn n row) = false ->
  exists inrange zeros p more,
    row = inrange ++ zeros ++ p :: more
    /\ length inrange = n
    /\ zero_row zeros = true /\ (p =? 0)%float = false.
Proof.
  intros H.
  destruct (zero_row_false_split _ H) as [zeros [p [more [E [Hz Hp]]]]].
  exists (firstn n row), zeros, p, more.
  split; [rewrite <- E; symmetry; apply firstn_skipn |].
  split; [| split; assumption].
  apply firstn_length_le.
  destruct (Nat.le_gt_cases n (length row)) as [Hle | Hgt]; [exact Hle |].
  rewrite skipn_all2 in E by lia. destruct zeros; discriminate E.
Qed.

Lemma first_wide_row (n : nat) (policy_matrix : list (list float)) :
  Exists (fun row => zero_row (skipn n row) = false) policy_matrix ->
  exists before row rest,
    policy_matrix = before ++ row :: rest
    /\ Forall (fun row => zero_row (skipn n row) = true) before
    /\ zero_row (skipn n row) = false.
Proof.
  induction policy_matrix as [| row pm IH]; intros H;
    [inversion H |].
  destruct (zero_row (skipn n row)) eqn:E.
  - inversion H as [? ? Hrow | ? ? Hpm]; subst; [congruence |].
    destruct (IH Hpm) as [before [row' [rest [-> [Hb Hr]]]]].
    exists (row :: before), row', rest.
    split; [reflexivity |]. split; [constructor; assumption | exact Hr].
  - exists [], row, pm. repeat split; [constructor | exact E].
Qed.

(** X14: with axes and on a grid that has rows, whenever some row of
    the matrix has a nonzero probability in a column past the action
    space, [add_policy] raises the index error.  It does so at the
    first such probability: the patches of the rows before that row,
    and of that row's columns inside the action space, have been drawn
    by then and stay on the axes. *)
Theorem wide_row_raises_index_error (w : world) (arts : list artist)
    (policy_matrix : list (list float)) :
  ax (self w) = Some arts ->
  fst (env_size (self w)) <> 0 ->
  Exists (fun row =>
            zero_row (skipn (length (action_space (self w))) row) = false)
         policy_matrix ->
  exists before inrange zeros p more rest,
    policy_matrix = before ++ (inrange ++ zeros ++ p :: more) :: rest
    /\ Forall (fun row =>
                 zero_row (skipn (length (action_space (self w))) row)
                 = true) before
    /\ length inrange = length (action_space (self w))
    /\ zero_row zeros = true
    /\ (p =? 0)%float = false
    /\ add_policy policy_matrix w =
       (Raise IndexError,
        {| self :=
             set_ax
               (arts
                ++ concat
                     (map (fun '(state, row) =>
                             row_patches (self w)
                               (state mod fst (env_size (self w)))
                               (state / fst (env_size (self w))) row)
                          (enumerate before))
                ++ row_patches (self w)
                     (Z.of_nat (length before) mod fst (env_size (self w)))
                     (Z.of_nat (length before) / fst (env_size (self w)))
                     inrange)
               (self w);
           np_random := np_random w |}).
Proof.
  destruct w as [g r]. cbn [self np_random]. intros Hax Hrows Hex.
  destruct (first_wide_row _ _ Hex) as [before [row [rest [-> [Hb Hr]]]]].
  destruct (wide_row_split _ _ Hr)
    as [inrange [zeros [p [more [-> [Hlen [Hz Hp]]]]]]].
  exists before, inrange, zeros, p, more, rest.
  split; [reflexivity |]. split; [exact Hb |]. split; [exact Hlen |].
  split; [exact Hz |]. split; [exact Hp |].
  rewrite add_policy_unfold. unfold enumerate at 1.
  rewrite enumerate_from_app, for_each_app.
  rewrite (policy_loop_returns_wide before 0 g r arts Hrows Hb Hax).
  fold (enumerate before).
  cbn [enumerate_from for_each].
  unfold bind at 1. unfold bind at 1, get_self at 1. cbn [self].
  cbn [set_ax env_size].
  unfold bind at 1, py_mod. pose proof Hrows as Hzr.
  apply Z.eqb_neq in Hzr. rewrite Hzr.
  unfold ret at 1. unfold bind at 1, py_floordiv. rewrite Hzr.
  unfold ret at 1. unfold enumerate at 1.
  match goal with |- context [for_each _ _ {| self := ?g1; np_random := r |}] =>
    rewrite (row_loop_raises _ _ inrange zeros more p g1 r _ eq_refl
               Hlen Hz Hp)
  end.
  cbn [set_ax env_size num_states start_state target_state
       forbidden_states agent_state action_space reward_target
       reward_forbidden reward_step traj ax].
  rewrite Z.add_0_l, <- app_assoc. reflexivity.
Qed.

Lemma wide_row_raises_index_error_witness :
  ax (self (Tests.rendered Tests.boundary_env)) = Some []
  /\ fst (env_size (self (Tests.rendered Tests.boundary_env))) <> 0
  /\ Exists (fun row =>
               zero_row
                 (skipn (length (action_space
                                   (self (Tests.rendered Tests.boundary_env))))
                        row) = false)
            Scenes.wide_policy
  /\ exists before inrange zeros p more rest,
       Scenes.wide_policy = before ++ (inrange ++ zeros ++ p :: more) :: rest
       /\ Forall (fun row =>
                    zero_row
                      (skipn (length
                                (action_space
                                   (self (Tests.rendered
                                            Tests.boundary_env))))
                             row) = true) before
       /\ length inrange = 5%nat
       /\ zero_row zeros = true
       /\ (p =? 0)%float = false
       /\ add_policy Scenes.wide_policy (Tests.rendered Tests.boundary_env) =
          (Raise IndexError,
           {| self :=
                set_ax
                  ([]
                   ++ concat
                        (map (fun '(state, row) =>
                                row_patches
                                  (self (Tests.rendered Tests.boundary_env))
                                  (state mod 3) (state / 3) row)
                             (enumerate before))
                   ++ row_patches
                        (self (Tests.rendered Tests.boundary_env))
                        (Z.of_nat (length before) mod 3)
                        (Z.of_nat (length before) / 3)
                        inrange)
                  (self (Tests.rendered Tests.boundary_env));
              np_random := Tests.samples |}).
Proof.
  assert (Hax : ax (self (Tests.rendered Tests.boundary_env)) = Some [])
    by reflexivity.
  assert (Hrows : fst (env_size (self (Tests.rendered Tests.boundary_env)))
                  <> 0) by (cbn; lia).
  assert (Hex : Exists (fun row =>
                  zero_row
                    (skipn (length (action_space
                                      (self (Tests.rendered
                                               Tests.boundary_env))))
                           row) = false)
                  Scenes.wide_policy).
  { apply Exists_cons_tl. apply Exists_cons_hd. reflexivity. }
  split; [exact Hax |]. split; [exact Hrows |]. split; [exact Hex |].
  exact (wide_row_raises_index_error (Tests.rendered Tests.boundary_env) []
           Scenes.wide_policy Hax Hrows Hex).
Defined.

(** X15: overlays accumulate.  With axes, on a grid that has rows and
    with rows no wider than the action space, drawing the same policy
    twice puts its patches on the axes twice, and values written after
    a policy come after its patches; nothing is replaced. *)
Theorem overlays_accumulate (np_round : float -> Z -> float)
    (str : float -> string) (policy_matrix : list (list float))
    (values : list float) (precision : Z) (w : world) (arts : list artist) :
  ax (self w) = Some arts ->
  fst (env_size (self w)) <> 0 ->
  Forall (fun row => (length row <= length (action_space (self w)))%nat)
         policy_matrix ->
  let patches :=
    concat (map (fun '(state, row) =>
                   row_patches (self w)
                     (state mod fst (env_size (self w)))
                     (state / fst (env_size (self w))) row)
                (enumerate policy_matrix)) in
  let texts :=
    map (fun '(i, value) =>
           Text (i mod fst (env_size (self w)))
                (i / fst (env_size (self w))) (str value))
        (enumerate (map (fun v => np_round v precision) values)) in
  (exists w',
     (add_policy policy_matrix ;; add_policy policy_matrix) w
     = (Return tt, w')
     /\ ax (self w') = Some (arts ++ patches ++ patches))
  /\ (exists w',
        (add_policy policy_matrix ;;
         add_state_values np_round str values precision) w
        = (Return tt, w')
        /\ ax (self w') = Some (arts ++ patches ++ texts)).
Proof.
  intros Hax Hrows Hall. cbv zeta. split.
  - unfold bind.
    rewrite (add_policy_returns policy_matrix w arts Hrows Hall Hax).
    match goal with |- context [add_policy policy_matrix ?w1] =>
      rewrite (add_policy_returns policy_matrix w1 _ Hrows Hall eq_refl)
    end.
    eexists. split; [reflexivity |]. cbn [self ax set_ax env_size
      action_space]. rewrite <- app_assoc. reflexivity.
  - unfold bind.
    rewrite (add_policy_returns policy_matrix w arts Hrows Hall Hax).
    match goal with |- context [add_state_values _ _ _ _ ?w1] =>
      rewrite (add_state_values_returns np_round str values precision w1 _
                 Hrows eq_refl)
    end.
    eexists. split; [reflexivity |]. cbn [self ax set_ax env_size].
    rewrite <- app_assoc. reflexivity.
Qed.

Lemma overlays_accumulate_witness :
  ax (self (Tests.rendered Tests.boundary_env)) = Some []
  /\ fst (env_size (self (Tests.rendered Tests.boundary_env))) <> 0
  /\ Forall (fun row =>
               (length row
                <= length (action_space
                             (self (Tests.rendered Tests.boundary_env))))%nat)
            Tests.policy
  /\ (exists w',
        (add_policy Tests.policy ;; add_policy Tests.policy)
          (Tests.rendered Tests.boundary_env) = (Return tt, w')
        /\ option_map (@length artist) (ax (self w')) = Some 36%nat)
  /\ (exists w',
        (add_policy Tests.policy ;;
         add_state_values Tests.keep Tests.blank Tests.values 1)
          (Tests.rendered Tests.boundary_env) = (Return tt, w')
        /\ option_map (@length artist) (ax (self w')) = Some 27%nat).
Proof.
  assert (Hax : ax (self (Tests.rendered Tests.boundary_env)) = Some [])
    by reflexivity.
  assert (Hrows : fst (env_size (self (Tests.rendered Tests.boundary_env)))
                  <> 0) by (cbn; lia).
  assert (Hall : Forall (fun row =>
                   (length row
                    <= length (action_space
                                 (self (Tests.rendered Tests.boundary_env))))%nat)
                   Tests.policy).
  { cbn. repeat (apply Forall_cons; [apply Nat.le_refl |]). apply Forall_nil. }
  split; [exact Hax |]. split; [exact Hrows |]. split; [exact Hall |].
  destruct (overlays_accumulate Tests.keep Tests.blank Tests.policy
              Tests.values 1 (Tests.rendered Tests.boundary_env) []
              Hax Hrows Hall) as [[w1 [H1 A1]] [w2 [H2 A2]]].
  split.
  - exists w1. split; [exact H1 |]. rewrite A1. reflexivity.
  - exists w2. split; [exact H2 |]. rewrite A2. reflexivity.
Defined.

(** ** Reaching the target *)

Lemma final_state_replay (g : GridWorld) (actions : list cell) :
  forall state,
    final_state state (replay g state actions) = walk g state actions.
Proof.
  unfold final_state, walk.
  induction actions as [| a rest IH]; intros state; cbn [replay fold_left].
  - reflexivity.
  - destruct (_get_next_state_and_reward g state a) as [ns r] eqn:E.
    cbn [map returned_state fst]. rewrite last_cons_default. apply IH.
Qed.

(** On a small grid without forbidden cells, a valid action whose
    candidate is a cell of the grid moves the agent onto the
    candidate. *)
Lemma free_move (g : GridWorld) (state action : cell) :
  small_grid g ->
  forbidden_states g = [] ->
  in_grid g state ->
  In action args.action_space ->
  in_grid g (Spec.candidate state action) ->
  fst (_get_next_state_and_reward g state action)
  = Spec.candidate state action.
Proof.
  intros Hsmall Hfree Hs Ha Hc.
  assert (W : wall_hit g state action = false).
  { destruct state as [x y]. unfold in_grid, Spec.candidate in Hc.
    cbn [fst snd] in Hc. unfold wall_hit. cbn [fst snd].
    apply action_space_cases in Ha.
    destruct Ha as [-> | [-> | [-> | [-> | ->]]]];
      unfold Spec.up, Spec.right, Spec.down, Spec.left, Spec.stay in *;
      cbn [fst snd] in Hc;
      eval_cell_eqb; rewrite ?andb_false_r, ?andb_true_r;
      repeat (apply orb_false_iff; split);
      first [ reflexivity | rewrite ?Z.gtb_ltb; apply Z.ltb_ge; lia ]. }
  rewrite transition_no_wall by assumption. cbv zeta.
  destruct (cell_eqb (Spec.candidate state action) (target_state g)) eqn:Et.
  - apply cell_eqb_eq in Et. symmetry. exact Et.
  - rewrite Hfree. reflexivity.
Qed.

(** [n] unit moves along one axis of a map without forbidden cells,
    when the cell they end on is a cell of the grid. *)
Lemma walk_straight (g : GridWorld) (action : cell) (n : nat) :
  small_grid g ->
  forbidden_states g = [] ->
  In action args.action_space ->
  forall state,
    in_grid g state ->
    in_grid g (fst state + Z.of_nat n * fst action,
               snd state + Z.of_nat n * snd action) ->
    walk g state (repeat action n)
    = (fst state + Z.of_nat n * fst action,
       snd state + Z.of_nat n * snd action).
Proof.
  intros Hsmall Hfree Ha. unfold walk.
  induction n as [| n IH]; intros state Hs He.
  - cbn. rewrite !Z.add_0_r. destruct state; reflexivity.
  - cbn [repeat fold_left].
    assert (Hc : in_grid g (Spec.candidate state action)).
    { unfold in_grid, Spec.candidate in *. cbn [fst snd] in *.
      pose proof (action_space_cases action Ha) as Hcase.
      destruct Hcase as [-> | [-> | [-> | [-> | ->]]]];
        unfold Spec.up, Spec.right, Spec.down, Spec.left, Spec.stay in *;
        cbn [fst snd] in *; lia. }
    rewrite (free_move g state action Hsmall Hfree Hs Ha Hc).
    rewrite IH; unfold Spec.candidate; cbn [fst snd].
    + f_equal; lia.
    + exact Hc.
    + replace (fst state + fst action + Z.of_nat n * fst action)
        with (fst state + Z.of_nat (S n) * fst action) by lia.
      replace (snd state + snd action + Z.of_nat n * snd action)
        with (snd state + Z.of_nat (S n) * snd action) by lia.
      exact He.
Qed.

Lemma walk_strides_x (g : GridWorld) (state : cell) (x' : Z) :
  small_grid g ->
  forbidden_states g = [] ->
  in_grid g state ->
  in_grid g (x', snd state) ->
  walk g state (strides (x' - fst state) (1, 0) (-1, 0)) = (x', snd state).
Proof.
  intros Hsmall Hfree Hs He. unfold strides.
  destruct (0 <=? x' - fst state) eqn:E.
  - apply Z.leb_le in E.
    rewrite walk_straight; try assumption.
    + cbn [fst snd]. f_equal; lia.
    + right; left; reflexivity.
    + cbn [fst snd].
      replace (fst state + Z.of_nat (Z.to_nat (Z.abs (x' - fst state))) * 1)
        with x' by lia.
      replace (snd state + Z.of_nat (Z.to_nat (Z.abs (x' - fst state))) * 0)
        with (snd state) by lia.
      exact He.
  - apply Z.leb_gt in E.
    rewrite walk_straight; try assumption.
    + cbn [fst snd]. f_equal; lia.
    + do 3 right; left; reflexivity.
    + cbn [fst snd].
      replace (fst state + Z.of_nat (Z.to_nat (Z.abs (x' - fst state))) * -1)
        with x' by lia.
      replace (snd state + Z.of_nat (Z.to_nat (Z.abs (x' - fst state))) * 0)
        with (snd state) by lia.
      exact He.
Qed.

Lemma walk_strides_y (g : GridWorld) (state : cell) (y' : Z) :
  small_grid g ->
  forbidden_states g = [] ->
  in_grid g state ->
  in_grid g (fst state, y') ->
  walk g state (strides (y' - snd state) (0, 1) (0, -1)) = (fst state, y').
Proof.
  intros Hsmall Hfree Hs He. unfold strides.
  destruct (0 <=? y' - snd state) eqn:E.
  - apply Z.leb_le in E.
    rewrite walk_straight; try assumption.
    + cbn [fst snd]. f_equal; lia.
    + do 2 right; left; reflexivity.
    + cbn [fst snd].
      replace (fst state + Z.of_nat (Z.to_nat (Z.abs (y' - snd state))) * 0)
        with (fst state) by lia.
      replace (snd state + Z.of_nat (Z.to_nat (Z.abs (y' - snd state))) * 1)
        with y' by lia.
      exact He.
  - apply Z.leb_gt in E.
    rewrite walk_straight; try assumption.
    + cbn [fst snd]. f_equal; lia.
    + left; reflexivity.
    + cbn [fst snd].
      replace (fst state + Z.of_nat (Z.to_nat (Z.abs (y' - snd state))) * 0)
        with (fst state) by lia.
      replace (snd state + Z.of_nat (Z.to_nat (Z.abs (y' - snd state))) * -1)
        with y' by lia.
      exact He.
Qed.

Lemma route_valid (from to : cell) :
  Forall (fun a => In a args.action_space) (route from to).
Proof.
  unfold route, strides. apply Forall_app. split; apply Forall_forall;
    intros a Ha; apply repeat_spec in Ha; subst a.
  - destruct (0 <=? fst to - fst from);
      [right; left; reflexivity | do 3 right; left; reflexivity].
  - destruct (0 <=? snd to - snd from);
      [do 2 right; left; reflexivity | left; reflexivity].
Qed.

Lemma length_route (from to : cell) :
  Z.of_nat (length (route from to)) = manhattan to from.
Proof.
  unfold route, strides, manhattan.
  rewrite length_app, !repeat_length. lia.
Qed.

Lemma walk_route (g : GridWorld) (from to : cell) :
  small_grid g ->
  forbidden_states g = [] ->
  in_grid g from ->
  in_grid g to ->
  walk g from (route from to) = to.
Proof.
  intros Hsmall Hfree Hf Ht. unfold route.
  assert (Hmid : in_grid g (fst to, snd from)).
  { unfold in_grid in *. cbn [fst snd]. lia. }
  unfold walk. rewrite fold_left_app.
  fold (walk g from (strides (fst to - fst from) (1, 0) (-1, 0))).
  rewrite (walk_strides_x g from (fst to) Hsmall Hfree Hf Hmid).
  match goal with |- fold_left ?f ?l ?s = _ => fold (walk g s l) end.
  change (snd to - snd from) with (snd to - snd (fst to, snd from)).
  rewrite (walk_strides_y g (fst to, snd from) (snd to) Hsmall Hfree Hmid).
  - cbn [fst]. symmetry. apply surjective_pairing.
  - cbn [fst]. rewrite <- surjective_pairing. exact Ht.
Qed.

Lemma replay_done (g : GridWorld) (actions : list cell) :
  forall state,
    Forall (fun o => snd (fst o) = _is_done g (returned_state o))
           (replay g state actions).
Proof.
  induction actions as [| a rest IH]; intros state; cbn [replay].
  - constructor.
  - destruct (_get_next_state_and_reward g state a) as [ns r].
    constructor; [reflexivity | apply IH].
Qed.

Lemma last_in {A : Type} (l : list A) (d : A) : l <> [] -> In (last l d) l.
Proof.
  induction l as [| a l IH]; intros H; [contradiction H; reflexivity |].
  destruct l as [| b l]; [left; reflexivity |].
  right. apply IH. discriminate.
Qed.

(** X16: on a grid with fewer than [2^63] rows and fewer than [2^63]
    columns, without forbidden cells, whose start and target are cells
    of the grid, the target can be reached in as few calls as the
    two cells are unit moves apart: [reset] followed by the actions of
    [route] (along the first coordinate, then along the second) returns
    at every call, leaves the agent on the target, and unless the start
    is the target, one of the calls returned the target with [done]
    true. *)
Theorem target_reachable_on_free_map (w : world) :
  action_space (self w) = args.action_space ->
  small_grid (self w) ->
  forbidden_states (self w) = [] ->
  in_grid (self w) (start_state (self w)) ->
  in_grid (self w) (target_state (self w)) ->
  let actions := route (start_state (self w)) (target_state (self w)) in
  Forall (fun a => In a args.action_space) actions
  /\ Z.of_nat (length actions)
     = manhattan (target_state (self w)) (start_state (self w))
  /\ exists outs w',
       (reset ;; step_all actions) w = (Return outs, w')
       /\ agent_state (self w') = target_state (self w)
       /\ (start_state (self w) = target_state (self w)
           \/ exists o, In o outs
                        /\ returned_state o = target_state (self w)
                        /\ snd (fst o) = true).
Proof.
  intros Hcfg Hsmall Hfree Hs Ht. cbv zeta.
  pose proof (route_valid (start_state (self w)) (target_state (self w)))
    as Hall.
  split; [exact Hall |]. split; [apply length_route |].
  unfold bind. rewrite reset_returns.
  match goal with |- context [step_all ?acts ?w1] =>
    destruct (step_all_closed_form acts w1 [Cell (start_state (self w))]
                Hcfg eq_refl Hall)
      as [w' [Hrun [_ [Hpos _]]]];
    assert (Hsame : static_map (self w1) = static_map (self w))
      by reflexivity
  end.
  cbn [self agent_state set_traj set_agent_state] in Hrun, Hpos.
  rewrite (replay_static _ (self w) _ Hsame) in Hrun, Hpos.
  rewrite final_state_replay, (walk_route _ _ _ Hsmall Hfree Hs Ht) in Hpos.
  eexists. exists w'. rewrite Hrun.
  split; [reflexivity |]. split; [exact Hpos |].
  remember (replay (self w) (start_state (self w))
              (route (start_state (self w)) (target_state (self w))))
    as outs eqn:Eouts.
  destruct outs as [| o0 outs'] eqn:Eo.
  - left.
    pose proof (final_state_replay (self w)
                  (route (start_state (self w)) (target_state (self w)))
                  (start_state (self w))) as Hf.
    rewrite <- Eouts, (walk_route _ _ _ Hsmall Hfree Hs Ht) in Hf.
    exact Hf.
  - right.
    pose proof (final_state_replay (self w)
                  (route (start_state (self w)) (target_state (self w)))
                  (start_state (self w))) as Hf.
    rewrite <- Eouts, (walk_route _ _ _ Hsmall Hfree Hs Ht) in Hf.
    unfold final_state in Hf.
    assert (Hin : In (target_state (self w))
                    (map returned_state (o0 :: outs'))).
    { rewrite <- Hf. apply last_in. discriminate. }
    apply in_map_iff in Hin. destruct Hin as [o [Hro Hino]].
    exists o. split; [exact Hino |]. split; [exact Hro |].
    pose proof (replay_done (self w)
                  (route (start_state (self w)) (target_state (self w)))
                  (start_state (self w))) as Hd.
    rewrite <- Eouts in Hd.
    rewrite Forall_forall in Hd. rewrite (Hd o Hino), Hro.
    unfold _is_done. apply cell_eqb_refl.
Qed.

Lemma target_reachable_on_free_map_witness :
  action_space (self (Tests.fresh Tests.boundary_env)) = args.action_space
  /\ small_grid (self (Tests.fresh Tests.boundary_env))
  /\ forbidden_states (self (Tests.fresh Tests.boundary_env)) = []
  /\ in_grid (self (Tests.fresh Tests.boundary_env))
       (start_state (self (Tests.fresh Tests.boundary_env)))
  /\ in_grid (self (Tests.fresh Tests.boundary_env))
       (target_state (self (Tests.fresh Tests.boundary_env)))
  /\ Forall (fun a => In a args.action_space) (route (0, 0) (2, 2))
  /\ Z.of_nat (length (route (0, 0) (2, 2))) = 4
  /\ exists outs w',
       (reset ;; step_all (route (0, 0) (2, 2)))
         (Tests.fresh Tests.boundary_env) = (Return outs, w')
       /\ agent_state (self w') = (2, 2)
       /\ ((0, 0) = (2, 2)
           \/ exists o, In o outs
                        /\ returned_state o = (2, 2)
                        /\ snd (fst o) = true).
Proof.
  assert (Hcfg : action_space (self (Tests.fresh Tests.boundary_env))
                 = args.action_space) by reflexivity.
  assert (Hfree : forbidden_states (self (Tests.fresh Tests.boundary_env))
                  = []) by reflexivity.
  assert (Hs : in_grid (self (Tests.fresh Tests.boundary_env))
                 (start_state (self (Tests.fresh Tests.boundary_env))))
    by (unfold in_grid; cbn; lia).
  assert (Ht : in_grid (self (Tests.fresh Tests.boundary_env))
                 (target_state (self (Tests.fresh Tests.boundary_env))))
    by (unfold in_grid; cbn; lia).
  assert (Hsmall : small_grid (self (Tests.fresh Tests.boundary_env)))
    by (unfold small_grid; cbn; lia).
  split; [exact Hcfg |]. split; [exact Hsmall |]. split; [exact Hfree |].
  split; [exact Hs |]. split; [exact Ht |].
  exact (target_reachable_on_free_map (Tests.fresh Tests.boundary_env)
           Hcfg Hsmall Hfree Hs Ht).
Defined.

(** ** reset after anything *)

(** [step], returning or raising, assigns to the agent's position and
    the trajectory only. *)
Lemma step_keeps_rest (action : cell) (w : world) :
  num_states (self (snd (step action w))) = num_states (self w)
  /\ ax (self (snd (step action w))) = ax (self w).
Proof.
  unfold step, bind, get_self, assert.
  destruct (cell_in action (action_space (self w))); [| split; reflexivity].
  unfold ret at 1.
  destruct (_get_next_state_and_reward (self w) (agent_state (self w)) action)
    as [next_state reward].
  unfold randn, modify_self, traj_append, ret, raise; cbn.
  destruct (traj (self w)); split; reflexivity.
Qed.

Lemma step_all_keeps_rest (actions : list cell) :
  forall w : world,
    static_map (self (snd (step_all actions w))) = static_map (self w)
    /\ num_states (self (snd (step_all actions w))) = num_states (self w)
    /\ ax (self (snd (step_all actions w))) = ax (self w).
Proof.
  induction actions as [| a rest IH]; intros w.
  - repeat split.
  - cbn [step_all]. unfold bind.
    pose proof (step_static_map a w) as Hm.
    destruct (step_keeps_rest a w) as [Hn Hx].
    destruct (step a w) as [[o | e] w1]; cbn [snd] in *.
    + destruct (IH w1) as [Hm' [Hn' Hx']].
      destruct (step_all rest w1) as [[os | e] w2]; unfold ret;
        cbn [snd] in *; repeat split; congruence.
    + repeat split; assumption.
Qed.

(** X17: [reset] forgets the episode.  After any sequence of [step]
    calls, valid or not, returning or raising, [reset] leaves the
    instance exactly as [reset] would have left it before them. *)
Theorem reset_forgets_episode (w : world) (actions : list cell) :
  self (snd (reset (snd (step_all actions w)))) = self (snd (reset w)).
Proof.
  destruct (step_all_keeps_rest actions w) as [Hm [Hn Hx]].
  rewrite !reset_returns. cbn [snd self].
  destruct (self (snd (step_all actions w))), (self w).
  unfold static_map in Hm. cbn in *. inversion Hm. subst. reflexivity.
Qed.

(** ** A target off the grid *)

Lemma replay_in_grid (g : GridWorld) (actions : list cell) :
  small_grid g ->
  forall state,
    in_grid g state ->
    Forall (fun a => In a args.action_space) actions ->
    Forall (fun o => in_grid g (returned_state o)) (replay g state actions).
Proof.
  intros Hsmall.
  induction actions as [| a rest IH]; intros state Hs Hall; cbn [replay].
  - constructor.
  - inversion Hall as [| ? ? Ha Hrest]; subst.
    pose proof (transition_in_grid g state a Hsmall Hs Ha) as Hin.
    destruct (_get_next_state_and_reward g state a) as [ns r].
    cbn [fst] in Hin.
    constructor; [exact Hin | apply IH; assumption].
Qed.

(** X18: nothing checks that the target is a cell of the grid, and on
    a grid with fewer than [2^63] rows and fewer than [2^63] columns a
    target that is not can never be reached: from a start cell on the
    grid, no valid [step] call of an episode returns [done] true. *)
Theorem off_grid_target_never_done (w : world) (actions : list cell) :
  action_space (self w) = args.action_space ->
  small_grid (self w) ->
  in_grid (self w) (start_state (self w)) ->
  ~ in_grid (self w) (target_state (self w)) ->
  Forall (fun a => In a args.action_space) actions ->
  exists outs w',
    (reset ;; step_all actions) w = (Return outs, w')
    /\ length outs = length actions
    /\ Forall (fun o => snd (fst o) = false) outs.
Proof.
  intros Hcfg Hsmall Hs Hoff Hall.
  unfold bind. rewrite reset_returns.
  match goal with |- context [step_all actions ?w1] =>
    destruct (step_all_closed_form actions w1 [Cell (start_state (self w))]
                Hcfg eq_refl Hall)
      as [w' [Hrun _]];
    assert (Hsame : static_map (self w1) = static_map (self w))
      by reflexivity
  end.
  cbn [self agent_state set_traj set_agent_state] in Hrun.
  rewrite (replay_static _ (self w) actions Hsame) in Hrun.
  eexists. exists w'. rewrite Hrun.
  split; [reflexivity |]. split; [apply length_replay |].
  pose proof (replay_in_grid (self w) actions Hsmall _ Hs Hall) as Hin.
  pose proof (replay_done (self w) actions (start_state (self w))) as Hd.
  rewrite Forall_forall in *. intros o Ho.
  rewrite (Hd o Ho). unfold _is_done. apply cell_eqb_neq.
  intros Heq. apply Hoff. rewrite <- Heq. apply Hin. exact Ho.
Qed.

Lemma off_grid_target_never_done_witness :
  action_space (self (Tests.fresh Scenes.lost_target)) = args.action_space
  /\ small_grid (self (Tests.fresh Scenes.lost_target))
  /\ in_grid (self (Tests.fresh Scenes.lost_target))
       (start_state (self (Tests.fresh Scenes.lost_target)))
  /\ ~ in_grid (self (Tests.fresh Scenes.lost_target))
         (target_state (self (Tests.fresh Scenes.lost_target)))
  /\ Forall (fun a => In a args.action_space)
       [(0, 1); (1, 0); (1, 0); (1, 0)]
  /\ exists outs w',
       (reset ;; step_all [(0, 1); (1, 0); (1, 0); (1, 0)])
         (Tests.fresh Scenes.lost_target) = (Return outs, w')
       /\ length outs = 4%nat
       /\ Forall (fun o => snd (fst o) = false) outs.
Proof.
  assert (Hcfg : action_space (self (Tests.fresh Scenes.lost_target))
                 = args.action_space) by reflexivity.
  assert (Hs : in_grid (self (Tests.fresh Scenes.lost_target))
                 (start_state (self (Tests.fresh Scenes.lost_target))))
    by (unfold in_grid; cbn; lia).
  assert (Hoff : ~ in_grid (self (Tests.fresh Scenes.lost_target))
                     (target_state (self (Tests.fresh Scenes.lost_target))))
    by (unfold in_grid; cbn; lia).
  assert (Hall : Forall (fun a => In a args.action_space)
                   [(0, 1); (1, 0); (1, 0); (1, 0)]).
  { repeat (apply Forall_cons; [cbn; auto 6 |]). apply Forall_nil. }
  assert (Hsmall : small_grid (self (Tests.fresh Scenes.lost_target)))
    by (unfold small_grid; cbn; lia).
  split; [exact Hcfg |]. split; [exact Hsmall |]. split; [exact Hs |].
  split; [exact Hoff |]. split; [exact Hall |].
  exact (off_grid_target_never_done (Tests.fresh Scenes.lost_target)
           [(0, 1); (1, 0); (1, 0); (1, 0)] Hcfg Hsmall Hs Hoff Hall).
Defined.
